(** * airport-meteo-api: the METAR pipeline (parse, store, aggregate, collect)

    A shallow embedding of
      - [src/airportapi/src/core/domain/meteo.py]           (the report model),
      - [src/airportapi/src/db.py]                          (the [metars] table),
      - [src/airportapi/src/infrastructure/repositories/meteo.py],
      - [src/airportapi/src/infrastructure/dto/meteostats.py],
      - [src/airportapi/src/infrastructure/services/meteo.py],
      - [src/metarscanner/task.py]                          (the collector),
    followed by the properties of the specification that concern them.

    Conventions.  A Python [float] is the rational it denotes ([Q]).  The
    one float computation of the code, the mean of an array, is not
    carried out: its result is kept as the mean of its operands, so that
    nothing is said of its rounding.  A naive [datetime] is
    an integer time stamp ([Z]).  A coroutine is the function it computes;
    the database is threaded explicitly.  A call that can raise returns a
    [result]. *)

From Stdlib Require Import List String Ascii ZArith QArith Qminmax Bool Lia.
From Stdlib Require Import Permutation Sorted.
Import ListNotations.

Local Open Scope Z_scope.

(** ** Python values that the code can produce *)

Module Py.

(** The exceptions that occur.  [NoDataError] is the name the specification
    gives to its empty-window error; no code path raises it. *)
Inductive exn : Type :=
| TypeError            (* pickle.loads(None); arithmetic on None *)
| ValueError           (* numpy: reduction of a zero-size array *)
| IndexError           (* list index out of range *)
| ValidationError      (* pydantic *)
| ParserError          (* metar.Metar.ParserError *)
| ClientResponseError  (* aiohttp: raise_for_status on a status >= 400 *)
| ClientConnectionError
| TimeoutError
| NoDataError.

Inductive result (A : Type) : Type :=
| Ok (a : A)
| Raise (e : exn).
Arguments Ok {A} a.
Arguments Raise {A} e.

Definition bind {A B} (m : result A) (k : A -> result B) : result B :=
  match m with
  | Ok a => k a
  | Raise e => Raise e
  end.

(** What a procedure hands back when the caller looks at the value. *)
Inductive retval : Type :=
| RetNone
| RetBool (b : bool).

Definition datetime := Z.

(** Truthiness, [if x:], of an optional object without [__bool__] or
    [__len__] (a [datetime], a library datum): only [None] is falsy. *)
Definition truthy {A} (x : option A) : bool :=
  match x with Some _ => true | None => false end.

(** Truthiness of an optional string: [None] and [""] are falsy. *)
Definition truthy_str (x : option string) : bool :=
  match x with
  | Some s => negb (String.eqb s EmptyString)
  | None => false
  end.

End Py.
Export Py.

Notation "x <- m ;; k" := (Py.bind m (fun x => k))
  (at level 61, m at next level, right associativity).

(** ** The report model, [core/domain/meteo.py] *)

(** One sky layer as [from_text_report] builds it: the cover code and the
    height of the layer, if the report gives one. *)
Definition SkyLayer : Type := (string * option Q)%type.

(** The thirteen fields of [MetarReportIn], which are also the columns of
    the [metars] table next to [id].  The type of [sky] is a parameter: a
    list in the model, a pickle in a table row. *)
Record Fields (S : Type) : Type := mkFields {
  icao_code      : option string;
  date_time      : option datetime;
  wind_speed     : option Q;
  wind_direction : option Q;
  wind_var_from  : option Q;
  wind_var_to    : option Q;
  wind_gust      : option Q;
  rvr            : option Q;
  rvr_direction  : option Q;
  dew_point      : option Q;
  sky            : S;
  temp           : option Q;
  qnh            : option Q
}.
Arguments mkFields {S}.
Arguments icao_code {S}.
Arguments date_time {S}.
Arguments wind_speed {S}.
Arguments wind_direction {S}.
Arguments wind_var_from {S}.
Arguments wind_var_to {S}.
Arguments wind_gust {S}.
Arguments rvr {S}.
Arguments rvr_direction {S}.
Arguments dew_point {S}.
Arguments sky {S}.
Arguments temp {S}.
Arguments qnh {S}.

(** [sky: Optional[list]]. *)
Definition MetarReportIn : Type := Fields (option (list SkyLayer)).

(** [class MetarReport(MetarReportIn)]: the same fields and [id: int]. *)
Record MetarReport : Type := mkReport {
  id : Z;
  body : MetarReportIn
}.

(** [set_sky f s] is [f] with its [sky] replaced. *)
Definition set_sky {S T} (f : Fields S) (s : T) : Fields T :=
  mkFields (icao_code f) (date_time f) (wind_speed f) (wind_direction f)
           (wind_var_from f) (wind_var_to f) (wind_gust f) (rvr f)
           (rvr_direction f) (dew_point f) s (temp f) (qnh f).

(** *** The third-party decoder

    [from_text_report] hands the text to [Metar.Metar] of the [metar]
    package and reads attributes of the object it gets.  The attributes are
    library data with a [value()] method (or [None]); [sky] is a list of
    triples of which the first two components are read. *)
Record Datum : Type := mkDatum { value : Q }.

Record MetarObs : Type := mkObs {
  station_id          : option string;
  time                : option datetime;
  obs_wind_speed      : option Datum;
  obs_wind_dir        : option Datum;
  obs_wind_dir_from   : option Datum;
  obs_wind_dir_to     : option Datum;
  obs_wind_gust       : option Datum;
  obs_vis             : option Datum;
  obs_vis_dir         : option Datum;
  obs_dewpt           : option Datum;
  obs_sky             : list (string * option Datum * option string);
  obs_temp            : option Datum;
  obs_press           : option Datum
}.

(** [x.value() if x else None] *)
Definition value_if (x : option Datum) : option Q :=
  if truthy x then match x with Some d => Some (value d) | None => None end
  else None.

(** The body of [from_text_report] after [obs = Metar.Metar(report)]. *)
Definition from_obs (obs : MetarObs) : MetarReportIn :=
  mkFields
    (station_id obs)
    (time obs)
    (value_if (obs_wind_speed obs))
    (value_if (obs_wind_dir obs))
    (value_if (obs_wind_dir_from obs))
    (value_if (obs_wind_dir_to obs))
    (value_if (obs_wind_gust obs))
    (value_if (obs_vis obs))
    (value_if (obs_vis_dir obs))
    (value_if (obs_dewpt obs))
    (Some (map (fun x => (fst (fst x), value_if (snd (fst x)))) (obs_sky obs)))
    (value_if (obs_temp obs))
    (value_if (obs_press obs)).

(** [Metar.Metar]: the constructor returns the decoded object or raises.
    The package is not part of the repository; the decoder is an argument
    of everything that calls it. *)
Definition Decoder : Type := string -> result MetarObs.

Definition from_text_report (Metar : Decoder) (report : string)
  : result MetarReportIn :=
  obs <- Metar report ;;
  Ok (from_obs obs).

(** ** The [metars] table and [MeteoRepository] *)

(** What [PickleType] writes for a list: [pickle.dumps] of it.  The bytes
    are kept abstract: a pickle is the list it was made from. *)
Inductive pickle : Type :=
| Pickled (l : list SkyLayer).

Definition pickle_dumps (l : list SkyLayer) : pickle := Pickled l.

(** [pickle.loads(x)]; [x] is a column value, [None] for SQL NULL. *)
Definition pickle_loads (x : option pickle) : result (list SkyLayer) :=
  match x with
  | Some (Pickled l) => Ok l
  | None => Raise TypeError
  end.

(** A row of [metars]: the primary key and the nullable columns. *)
Record Row : Type := mkRow {
  row_id : Z;
  cols : Fields (option pickle)
}.

(** The database: the rows of [metars] in insertion order and the next
    value of the key's sequence. *)
Record Database : Type := mkDb {
  metars : list Row;
  next_id : Z
}.

Definition empty_db : Database := mkDb [] 1.

(** Keys are handed out by the sequence: every stored key is below it. *)
Definition db_ok (db : Database) : Prop :=
  Forall (fun r => row_id r < next_id db) (metars db).

(** Every stored row carries a pickled sky (no NULL in that column). *)
Definition sky_stored (db : Database) : Prop :=
  Forall (fun r => sky (cols r) <> None) (metars db).

(** The values of the column [id], declared [Integer]: the signed 32-bit
    integers.  An id that a caller passes to [get_by_id] or
    [remove_report] is bound to that column in the query; the driver
    refuses an integer outside the range before the statement is run (a
    [DataError] of asyncpg).  The repository is embedded for the ids of the
    column's type: what is proved of a caller's id assumes [int32] of it. *)
Definition int32 (k : Z) : Prop := -2147483648 <= k <= 2147483647.

Module MeteoRepository.

(** The bind processor of [PickleType]: [None] stays NULL. *)
Definition bind_sky (s : option (list SkyLayer)) : option pickle :=
  option_map pickle_dumps s.

(** [database.execute(metar_table.insert().values( **report.model_dump()))]:
    appends the row and returns its new key. *)
Definition insert (db : Database) (report : MetarReportIn) : Database * Z :=
  let k := next_id db in
  (mkDb (metars db ++ [mkRow k (set_sky report (bind_sky (sky report)))])
        (k + 1),
   k).

(** [_map_report]: [None] for no record, else the record as a dict with
    [sky] unpickled. *)
Definition _map_report (report : option Row)
  : result (option (Z * MetarReportIn)) :=
  match report with
  | None => Ok None
  | Some r =>
      s <- pickle_loads (sky (cols r)) ;;
      Ok (Some (row_id r, set_sky (cols r) (Some s)))
  end.

(** [MetarReport( **d)] for a mapped record. *)
Definition to_report (d : Z * MetarReportIn) : MetarReport :=
  mkReport (fst d) (snd d).

(** [database.fetch_one] of [select().where(id == report_id)]. *)
Definition fetch_by_id (db : Database) (report_id : Z) : option Row :=
  find (fun r => row_id r =? report_id) (metars db).

Definition get_by_id (db : Database) (report_id : Z)
  : result (option MetarReport) :=
  let report := fetch_by_id db report_id in
  report_dict <- _map_report report ;;
  Ok (if truthy report then option_map to_report report_dict else None).

Definition add_report (db : Database) (report : MetarReportIn)
  : Database * result (option MetarReport) :=
  let (db', new_airport_id) := insert db report in
  (db', get_by_id db' new_airport_id).

(** [add_text_report]: decode, insert, read back; the report read back is
    copied field by field ([MetarReport( **dict(new_report))]). *)
Definition add_text_report (Metar : Decoder) (db : Database)
           (text_report : string)
  : Database * result (option MetarReport) :=
  match from_text_report Metar text_report with
  | Raise e => (db, Raise e)
  | Ok report_object =>
      let (db', new_report_id) := insert db report_object in
      (db',
       new_report <- get_by_id db' new_report_id ;;
       Ok (if truthy new_report
           then option_map (fun r => mkReport (id r) (body r)) new_report
           else None))
  end.

(** [remove_report].  [self.get_by_id(report_id)] is not awaited: the
    test sees a coroutine object, which is truthy, so the DELETE is always
    executed.  The method has no [return]. *)
Definition remove_report (db : Database) (report_id : Z)
  : Database * retval :=
  let coroutine_is_truthy := true in
  if coroutine_is_truthy
  then (mkDb (filter (fun r => negb (row_id r =? report_id)) (metars db))
             (next_id db),
        RetNone)
  else (db, RetNone).

(** SQL comparisons on a nullable column: NULL compares to nothing. *)
Definition sql_eq (c : option string) (v : string) : bool :=
  match c with Some x => String.eqb x v | None => false end.
Definition sql_ge (c : option datetime) (v : datetime) : bool :=
  match c with Some x => v <=? x | None => false end.
Definition sql_le (c : option datetime) (v : datetime) : bool :=
  match c with Some x => x <=? v | None => false end.

(** [query_conditions] of [get_by_airport], joined by [and_]. *)
Definition query_conditions (icao : string)
           (start_date end_date : option datetime) (r : Row) : bool :=
  sql_eq (icao_code (cols r)) icao
  && (if truthy start_date
      then match start_date with
           | Some s => sql_ge (date_time (cols r)) s
           | None => true
           end
      else true)
  && (if truthy end_date
      then match end_date with
           | Some e => sql_le (date_time (cols r)) e
           | None => true
           end
      else true).

(** [ORDER BY date_time ASC]; PostgreSQL puts NULL last. *)
Definition date_leb (a b : option datetime) : bool :=
  match a, b with
  | Some x, Some y => x <=? y
  | Some _, None => true
  | None, Some _ => false
  | None, None => true
  end.

Fixpoint insert_by_date (r : Row) (l : list Row) : list Row :=
  match l with
  | [] => [r]
  | h :: t =>
      if date_leb (date_time (cols r)) (date_time (cols h))
      then r :: l
      else h :: insert_by_date r t
  end.

Definition order_by_date_time (l : list Row) : list Row :=
  fold_right insert_by_date [] l.

(** [[MetarReport( **self._map_report(report)) for report in reports]] *)
Fixpoint map_reports (reports : list Row) : result (list MetarReport) :=
  match reports with
  | [] => Ok []
  | r :: rest =>
      d <- _map_report (Some r) ;;
      match d with
      | None => Raise TypeError  (* MetarReport( **None) *)
      | Some d =>
          tl <- map_reports rest ;;
          Ok (to_report d :: tl)
      end
  end.

Definition get_by_airport (db : Database) (icao : string)
           (start_date end_date : option datetime)
  : result (list MetarReport) :=
  let reports :=
    order_by_date_time
      (filter (query_conditions icao start_date end_date) (metars db)) in
  map_reports reports.

(** [ORDER BY id ASC]. *)
Fixpoint insert_by_id (r : Row) (l : list Row) : list Row :=
  match l with
  | [] => [r]
  | h :: t =>
      if row_id r <=? row_id h then r :: l else h :: insert_by_id r t
  end.

Definition order_by_id (l : list Row) : list Row :=
  fold_right insert_by_id [] l.

(** [get_all_reports]: every row, by ascending key, each mapped. *)
Definition get_all_reports (db : Database) : result (list MetarReport) :=
  map_reports (order_by_id (metars db)).

End MeteoRepository.

(** ** [MeteoStatsDTO] and [MeteoService.get_stats] *)

(** What a numpy reduction of a float array returns: an element of the
    array ([Num], for [min] and [max]), [nan], or the mean of the array.
    [Mean xs] is the float64 that [mean] computes for the elements [xs]:
    their sum, accumulated in floating point, over their count.  It is
    close to the arithmetic mean of [xs] and in general not equal to it;
    the rounding is not modelled, the value is kept as the reduction of
    its operands. *)
Inductive npfloat : Type :=
| Num (q : Q)
| NaN
| Mean (xs : list Q).

(** [np.array(l)] for a list of floats and [None]s: a float array when
    every entry is a float (also for the empty list), otherwise an array of
    Python objects. *)
Inductive ndarray : Type :=
| FloatArray (xs : list Q)
| ObjectArray (xs : list (option Q)).

Fixpoint all_floats (l : list (option Q)) : option (list Q) :=
  match l with
  | [] => Some []
  | Some x :: t => option_map (cons x) (all_floats t)
  | None :: _ => None
  end.

Definition np_array (l : list (option Q)) : ndarray :=
  match all_floats l with
  | Some xs => FloatArray xs
  | None => ObjectArray l
  end.

(** [arr.mean()]: the float64 mean of the elements.  The empty float
    array gives [nan] (and a warning); an object array holding [None]
    raises when [None] meets the addition or the division. *)
Definition np_mean (a : ndarray) : result npfloat :=
  match a with
  | FloatArray [] => Ok NaN
  | FloatArray xs => Ok (Mean xs)
  | ObjectArray _ => Raise TypeError
  end.

(** [arr.min()] and [arr.max()]: a zero-size array has no minimum; in an
    object array the comparison with [None] raises.  ([get_stats] asks for
    the mean of an array first, so it never reduces an object array with
    these.) *)
Definition np_min (a : ndarray) : result npfloat :=
  match a with
  | FloatArray [] => Raise ValueError
  | FloatArray (x :: xs) => Ok (Num (fold_left Qmin xs x))
  | ObjectArray _ => Raise TypeError
  end.

Definition np_max (a : ndarray) : result npfloat :=
  match a with
  | FloatArray [] => Raise ValueError
  | FloatArray (x :: xs) => Ok (Num (fold_left Qmax xs x))
  | ObjectArray _ => Raise TypeError
  end.

Record MeteoStatsDTO : Type := mkStats {
  start_time : datetime;
  end_time : datetime;
  stats_icao_code : string;
  avg_temperature : npfloat;
  min_temperature : npfloat;
  max_temperature : npfloat;
  avg_wind_speed : npfloat;
  min_wind_speed : npfloat;
  max_wind_speed : npfloat;
  avg_rvr : npfloat;
  min_rvr : npfloat;
  max_rvr : npfloat;
  avg_dew_point : npfloat;
  min_dew_point : npfloat;
  max_dew_point : npfloat;
  avg_qhn : npfloat;
  min_qhn : npfloat;
  max_qhn : npfloat
}.

(** The constructor [MeteoStatsDTO(...)]: pydantic validates the keyword
    arguments against the declared types.  [start_time] and [end_time] are
    declared [datetime], not [Optional[datetime]]: [None] is rejected. *)
Definition new_MeteoStatsDTO (start_time end_time : option datetime)
           (icao : string)
           (t_avg t_min t_max w_avg w_min w_max r_avg r_min r_max
            d_avg d_min d_max q_avg q_min q_max : npfloat)
  : result MeteoStatsDTO :=
  match start_time, end_time with
  | Some s, Some e =>
      Ok (mkStats s e icao t_avg t_min t_max w_avg w_min w_max
                  r_avg r_min r_max d_avg d_min d_max q_avg q_min q_max)
  | _, _ => Raise ValidationError
  end.

Module MeteoService.

(** [get_stats].  The keyword arguments of the constructor are evaluated
    left to right: mean, min, max of each array in turn. *)
Definition get_stats (db : Database) (icao : string)
           (start_date end_date : option datetime)
  : result MeteoStatsDTO :=
  reports <- MeteoRepository.get_by_airport db icao start_date end_date ;;
  let temperatures := map (fun r => temp (body r)) reports in
  let wind_speeds := map (fun r => wind_speed (body r)) reports in
  let rvrs := map (fun r => rvr (body r)) reports in
  let dew_points := map (fun r => dew_point (body r)) reports in
  let qnhs := map (fun r => qnh (body r)) reports in
  let temperatures_arr := np_array temperatures in
  let wind_speeds_arr := np_array wind_speeds in
  let rvrs_arr := np_array rvrs in
  let dew_points_arr := np_array dew_points in
  let qnhs_arr := np_array qnhs in
  t_avg <- np_mean temperatures_arr ;;
  t_min <- np_min temperatures_arr ;;
  t_max <- np_max temperatures_arr ;;
  w_avg <- np_mean wind_speeds_arr ;;
  w_min <- np_min wind_speeds_arr ;;
  w_max <- np_max wind_speeds_arr ;;
  r_avg <- np_mean rvrs_arr ;;
  r_min <- np_min rvrs_arr ;;
  r_max <- np_max rvrs_arr ;;
  d_avg <- np_mean dew_points_arr ;;
  d_min <- np_min dew_points_arr ;;
  d_max <- np_max dew_points_arr ;;
  q_avg <- np_mean qnhs_arr ;;
  q_min <- np_min qnhs_arr ;;
  q_max <- np_max qnhs_arr ;;
  new_MeteoStatsDTO start_date end_date icao
    t_avg t_min t_max w_avg w_min w_max r_avg r_min r_max
    d_avg d_min d_max q_avg q_min q_max.

End MeteoService.

(** ** The API route [POST /meteo/create], [api/routers/meteo.py] *)

(** [create_report]: the status the client sees.  An exception in the
    handler is answered with 500, a stored report with 201.  ([None] from
    the service would fail at [new_report.model_dump()].) *)
Definition create_report (Metar : Decoder) (db : Database) (report : string)
  : Database * Z :=
  match MeteoRepository.add_text_report Metar db report with
  | (db', Ok (Some _)) => (db', 201)
  | (db', Ok None) => (db', 500)
  | (db', Raise _) => (db', 500)
  end.

(** ** The collector, [metarscanner/task.py] *)

Module Collector.

(** An entry of the airport list: [airport["icao_code"]] (a string or
    null) and [airport["name"]]. *)
Record Airport : Type := mkAirport {
  airport_icao_code : option string;
  airport_name : string
}.

(** The outcome of one HTTP request: a response with its status and text,
    or an exception of the transport (no connection, time-out). *)
Inductive Response : Type :=
| Status (code : Z) (text : string)
| Failed (e : exn).

(** The world outside the collector: the report source, by URL, and the
    transport to the API (the failure of a POST carrying the given report,
    if it fails).  The quoting of the report in the query string of the
    POST is not modelled: the text reaches the route as it was sent. *)
Record World : Type := mkWorld {
  http_get : string -> Response;
  post_failure : string -> option exn
}.

Definition upper_ascii (c : ascii) : ascii :=
  let n := nat_of_ascii c in
  if ((97 <=? n) && (n <=? 122))%nat then ascii_of_nat (n - 32) else c.

(** [str.upper] (on ASCII letters). *)
Fixpoint upper (s : string) : string :=
  match s with
  | EmptyString => EmptyString
  | String c r => String (upper_ascii c) (upper r)
  end.

Definition METAR_ENDPOINT (icao_code : string) : string :=
  ("https://tgftp.nws.noaa.gov/data/observations/metar/stations/"
     ++ icao_code ++ ".TXT")%string.

Definition newline : ascii := "010"%char.

(** [text.split("\n")]: never empty; a text without a line break is one
    line. *)
Fixpoint split_lines (text : string) : list string :=
  match text with
  | EmptyString => [EmptyString]
  | String c r =>
      if Ascii.eqb c newline then EmptyString :: split_lines r
      else match split_lines r with
           | [] => [String c EmptyString]
           | h :: t => String c h :: t
           end
  end.

(** [async with session.get(...) as response: response.raise_for_status()] *)
Definition raise_for_status (r : Response) : result string :=
  match r with
  | Failed e => Raise e
  | Status code text =>
      if 400 <=? code then Raise ClientResponseError else Ok text
  end.

(** [fetch_metar]: only [aiohttp.ClientResponseError] is caught. *)
Definition fetch_metar (w : World) (icao_code : string)
  : result (option string) :=
  let attempt :=
    text <- raise_for_status (http_get w (METAR_ENDPOINT (upper icao_code))) ;;
    match nth_error (split_lines text) 1 with
    | Some line => Ok line
    | None => Raise IndexError
    end in
  match attempt with
  | Ok line => Ok (Some line)
  | Raise ClientResponseError => Ok None
  | Raise e => Raise e
  end.

(** [post_metar]: the POST runs the route above; again only
    [aiohttp.ClientResponseError] is caught. *)
Definition post_metar (w : World) (Metar : Decoder) (db : Database)
           (metar_data : string) : Database * result unit :=
  let (db', response) :=
    match post_failure w metar_data with
    | Some e => (db, Failed e)
    | None =>
        let (db', code) := create_report Metar db metar_data in
        (db', Status code EmptyString)
    end in
  match raise_for_status response with
  | Ok _ => (db', Ok tt)
  | Raise ClientResponseError => (db', Ok tt)
  | Raise e => (db', Raise e)
  end.

Definition process_airport (w : World) (Metar : Decoder) (db : Database)
           (airport : Airport) : Database * result unit :=
  let icao_code := airport_icao_code airport in
  if negb (truthy_str icao_code) then (db, Ok tt)
  else
    match icao_code with
    | None => (db, Ok tt)
    | Some icao_code =>
        match fetch_metar w icao_code with
        | Raise e => (db, Raise e)
        | Ok metar_data =>
            if truthy_str metar_data
            then match metar_data with
                 | Some d => post_metar w Metar db d
                 | None => (db, Ok tt)
                 end
            else (db, Ok tt)
        end
    end.

(** What the program leaves to the event loop and the network: the
    order in which the station tasks complete and, when one of them
    raises, how many of the tasks still pending complete before the rest
    is cancelled.  [arrival] names, step by step, the task that completes
    next by its position among the tasks still pending (modulo their
    number; the first pending task once the list is used up). *)
Record Schedule : Type := mkSchedule {
  arrival : list nat;
  stragglers : nat
}.

(** The element at position [k] and the others, in order. *)
Fixpoint take_nth {A : Type} (k : nat) (l : list A) {struct l}
  : option (A * list A) :=
  match l with
  | [] => None
  | x :: t =>
      match k with
      | O => Some (x, t)
      | S k' =>
          match take_nth k' t with
          | Some (y, t') => Some (y, x :: t')
          | None => None
          end
      end
  end.

(** [await asyncio.gather( *tasks)], one completing task per step.  The
    tasks run concurrently and share nothing but the store, which each
    touches by at most one insert (its POST); a task is placed here at the
    moment it completes.  [outcome] is what [gather] hands to [main]: the
    first exception that a task raises, raised in [main] as soon as it
    occurs; the tasks still pending then are not awaited any more: [left]
    of them complete (their exceptions are lost) before the event loop
    cancels the others.  [left] is [None] as long as no task has
    raised. *)
Fixpoint gather_loop (w : World) (Metar : Decoder) (stragglers steps : nat)
         (arrival : list nat) (left : option nat) (pending : list Airport)
         (db : Database) (outcome : result unit) : Database * result unit :=
  match steps with
  | O => (db, outcome)
  | S steps' =>
      match left with
      | Some O => (db, outcome)
      | _ =>
          match take_nth (Nat.modulo (hd O arrival) (List.length pending))
                         pending with
          | None => (db, outcome)
          | Some (airport, rest) =>
              let (db', r) := process_airport w Metar db airport in
              match outcome, r with
              | Ok _, Ok _ =>
                  gather_loop w Metar stragglers steps' (tl arrival) left
                              rest db' (Ok tt)
              | Ok _, Raise e =>
                  gather_loop w Metar stragglers steps' (tl arrival)
                              (Some stragglers) rest db' (Raise e)
              | Raise e0, _ =>
                  gather_loop w Metar stragglers steps' (tl arrival)
                              (option_map Nat.pred left) rest db' (Raise e0)
              end
          end
      end
  end.

Definition gather (w : World) (Metar : Decoder) (db : Database)
           (airports : list Airport) (sched : Schedule)
  : Database * result unit :=
  gather_loop w Metar (stragglers sched) (List.length airports)
              (arrival sched) None airports db (Ok tt).

(** [main], given the list that [fetch_airports] returned (a failure of
    that first request ends the run before any station is looked at). *)
Definition main (w : World) (Metar : Decoder) (db : Database)
           (airports : list Airport) (sched : Schedule)
  : Database * result unit :=
  gather w Metar db airports sched.

(** What the API answers to [GET /airport/all]: a status with the decoded
    list, or an exception of the transport. *)
Inductive Directory : Type :=
| Listing (code : Z) (airports : list Airport)
| Unreachable (e : exn).

(** [fetch_airports]: nothing is caught. *)
Definition fetch_airports (d : Directory) : result (list Airport) :=
  match d with
  | Unreachable e => Raise e
  | Listing code airports =>
      if 400 <=? code then Raise ClientResponseError else Ok airports
  end.

(** [main] from its first line: the directory is asked, then the station
    tasks are gathered. *)
Definition run (w : World) (d : Directory) (Metar : Decoder) (db : Database)
           (sched : Schedule) : Database * result unit :=
  match fetch_airports d with
  | Raise e => (db, Raise e)
  | Ok airports => main w Metar db airports sched
  end.

End Collector.

(** ** The other routes of [api/routers/meteo.py] *)

Module MeteoRouter.

(** How a route function ends: with a value, with the [HTTPException] it
    raises itself, or with an exception nobody handles. *)
Inductive outcome (A : Type) : Type :=
| Returned (a : A)
| HTTPException (status_code : Z) (detail : string)
| Unhandled (e : exn).
Arguments Returned {A} a.
Arguments HTTPException {A} status_code detail.
Arguments Unhandled {A} e.

Definition of_result {A} (r : result A) : outcome A :=
  match r with
  | Ok a => Returned a
  | Raise e => Unhandled e
  end.

(** [datetime.strptime(x, "%Y-%m-%d %H:%M:%S")], of the standard library:
    the time stamp, or an exception for a text of another shape. *)
Definition Strptime : Type := string -> result datetime.

(** [d = None; if x: d = datetime.strptime(x, ...)] *)
Definition parse_bound (strptime : Strptime) (x : option string)
  : result (option datetime) :=
  if truthy_str x
  then match x with
       | Some text => d <- strptime text ;; Ok (Some d)
       | None => Ok None
       end
  else Ok None.

(** [filter_reports]; the service hands the call to the repository. *)
Definition filter_reports (strptime : Strptime) (db : Database)
           (icao start end_ : option string) : outcome (list MetarReport) :=
  if negb (truthy_str icao)
  then HTTPException 400 "ICAO code not provided"
  else
    match icao with
    | None => HTTPException 400 "ICAO code not provided"
    | Some icao =>
        match parse_bound strptime start with
        | Raise e => Unhandled e
        | Ok start_date =>
            match parse_bound strptime end_ with
            | Raise e => Unhandled e
            | Ok end_date =>
                of_result
                  (MeteoRepository.get_by_airport db icao start_date end_date)
            end
        end
    end.

(** [get_stats] of the router. *)
Definition get_stats (strptime : Strptime) (db : Database)
           (icao start end_ : option string) : outcome MeteoStatsDTO :=
  if negb (truthy_str icao)
  then HTTPException 400 "ICAO code not provided"
  else
    match icao with
    | None => HTTPException 400 "ICAO code not provided"
    | Some icao =>
        match parse_bound strptime start with
        | Raise e => Unhandled e
        | Ok start_date =>
            match parse_bound strptime end_ with
            | Raise e => Unhandled e
            | Ok end_date =>
                of_result (MeteoService.get_stats db icao start_date end_date)
            end
        end
    end.

End MeteoRouter.

(** ** [init_db], [src/db.py] *)

Module Db.

(** One attempt to create the tables: done, one of the four errors the
    loop catches ([OperationalError], [DatabaseError],
    [CannotConnectNowError], [ConnectionDoesNotExistError]), or another
    exception. *)
Inductive attempt : Type :=
| Created
| Unavailable
| Failure (e : exn).

(** How [init_db] ends: it returns, it raises [ConnectionError], or the
    exception of an attempt passes through. *)
Inductive init_result : Type :=
| Ready
| ConnectionError
| Propagated (e : exn).

(** The loop from attempt number [attempt] with [remaining] rounds to go.
    Beside the result, the numbers printed in [Attempt n failed], in
    order; each print is followed by one [asyncio.sleep(delay)]. *)
Fixpoint init_loop (engine : nat -> attempt) (attempt remaining : nat)
  : init_result * list nat :=
  match remaining with
  | O => (ConnectionError, [])
  | S remaining' =>
      match engine attempt with
      | Created => (Ready, [])
      | Failure e => (Propagated e, [])
      | Unavailable =>
          let (r, printed) := init_loop engine (S attempt) remaining' in
          (r, (attempt + 1)%nat :: printed)
      end
  end.

(** [init_db(retries, delay)]; [range(retries)] is empty for
    [retries <= 0]. *)
Definition init_db (engine : nat -> attempt) (retries : Z)
  : init_result * list nat :=
  init_loop engine 0 (Z.to_nat retries).

(** The time slept in all: [delay] after every failed attempt. *)
Definition slept (delay : Z) (printed : list nat) : Z :=
  delay * Z.of_nat (List.length printed).

End Db.

(** ** Notions of the specification *)

(** The observation a row stores: its key, its columns, and the list its
    sky column is the pickle of. *)
Definition observation_of (r : Row) : MetarReport :=
  mkReport (row_id r)
           (set_sky (cols r)
                    (match sky (cols r) with
                     | Some (Pickled l) => Some l
                     | None => None
                     end)).

(** [observed_at] lies in [[start, end]]; an absent bound does not bound. *)
Definition within (start_ end_ : option datetime) (t : option datetime)
  : bool :=
  match start_, t with
  | None, _ => true
  | Some s, Some x => s <=? x
  | Some _, None => false
  end
  &&
  match end_, t with
  | None, _ => true
  | Some e, Some x => x <=? e
  | Some _, None => false
  end.

(** A stored row belongs to the station and to the window. *)
Definition selected (station : string) (start_ end_ : option datetime)
           (r : Row) : bool :=
  match icao_code (cols r) with
  | Some c => String.eqb c station
  | None => false
  end
  && within start_ end_ (date_time (cols r)).

(** Ascending [observed_at]; observations without one come last. *)
Definition not_after (a b : MetarReport) : Prop :=
  match date_time (body a), date_time (body b) with
  | Some x, Some y => x <= y
  | Some _, None => True
  | None, Some _ => False
  | None, None => True
  end.

(** The order of [ORDER BY date_time ASC] on rows. *)
Definition row_le (a b : Row) : Prop :=
  MeteoRepository.date_leb (date_time (cols a)) (date_time (cols b)) = true.

(** The present values of a metric. *)
Fixpoint present (l : list (option Q)) : list Q :=
  match l with
  | [] => []
  | Some x :: t => x :: present t
  | None :: t => present t
  end.

(** [m] is the least (greatest) of [xs]. *)
Definition is_min (xs : list Q) (m : Q) : Prop :=
  In m xs /\ Forall (fun x => (m <= x)%Q) xs.

Definition is_max (xs : list Q) (m : Q) : Prop :=
  In m xs /\ Forall (fun x => (x <= m)%Q) xs.

(** The triple (mean, min, max) reported for a metric is that of [xs]:
    the mean that [mean] computes over the elements [xs], all of them and
    no other, and their least and greatest element. *)
Definition summarises (xs : list Q) (avg mn mx : npfloat) : Prop :=
  exists lo hi,
    xs <> [] /\ avg = Mean xs /\ mn = Num lo /\ mx = Num hi
    /\ is_min xs lo /\ is_max xs hi.

(** The five metrics of a list of reports. *)
Definition metric (f : MetarReportIn -> option Q) (reports : list MetarReport)
  : list (option Q) :=
  map (fun r => f (body r)) reports.

(** The summary is the one the specification asks for over [reports]:
    each triple over the present values of its metric. *)
Definition summary_of (reports : list MetarReport) (dto : MeteoStatsDTO)
  : Prop :=
  summarises (present (metric temp reports))
             (avg_temperature dto) (min_temperature dto) (max_temperature dto)
  /\ summarises (present (metric wind_speed reports))
                (avg_wind_speed dto) (min_wind_speed dto) (max_wind_speed dto)
  /\ summarises (present (metric rvr reports))
                (avg_rvr dto) (min_rvr dto) (max_rvr dto)
  /\ summarises (present (metric dew_point reports))
                (avg_dew_point dto) (min_dew_point dto) (max_dew_point dto)
  /\ summarises (present (metric qnh reports))
                (avg_qhn dto) (min_qhn dto) (max_qhn dto).

(** Every report carries all five metrics. *)
Definition complete (r : MetarReport) : Prop :=
  temp (body r) <> None /\ wind_speed (body r) <> None
  /\ rvr (body r) <> None /\ dew_point (body r) <> None
  /\ qnh (body r) <> None.

(** A text holds no line break. *)
Fixpoint one_line (s : string) : bool :=
  match s with
  | EmptyString => true
  | String c r => negb (Ascii.eqb c Collector.newline) && one_line r
  end.

(** What one collector run stores for an airport, if anything: the decoded
    second line of the station's file, when the airport has a code, the
    source answers with a status below 400 and a text of two lines or more,
    the line is not empty and the decoder accepts it. *)
Definition report_of (w : Collector.World) (Metar : Decoder)
           (a : Collector.Airport) : option MetarReportIn :=
  match Collector.airport_icao_code a with
  | None => None
  | Some c =>
      if String.eqb c EmptyString then None
      else
        match Collector.http_get w
                (Collector.METAR_ENDPOINT (Collector.upper c)) with
        | Collector.Failed _ => None
        | Collector.Status code text =>
            if 400 <=? code then None
            else
              match Collector.split_lines text with
              | _ :: line :: _ =>
                  if String.eqb line EmptyString then None
                  else match Metar line with
                       | Ok obs => Some (from_obs obs)
                       | Raise _ => None
                       end
              | _ => None
              end
        end
  end.

Fixpoint stored_reports (w : Collector.World) (Metar : Decoder)
         (airports : list Collector.Airport) : list MetarReportIn :=
  match airports with
  | [] => []
  | a :: rest =>
      match report_of w Metar a with
      | Some o => o :: stored_reports w Metar rest
      | None => stored_reports w Metar rest
      end
  end.

(** The table after the reports of a list were inserted one by one. *)
Definition insert_all (db : Database) (l : list MetarReportIn) : Database :=
  fold_left (fun d o => fst (MeteoRepository.insert d o)) l db.

(** The fetch for an airport ends in one of the two ways the collector
    provides for: an answer of the source with an error status, or an
    answer with a text of two lines or more.  (An airport without a code is
    not fetched.) *)
Definition fetch_settles (w : Collector.World) (a : Collector.Airport)
  : Prop :=
  match Collector.airport_icao_code a with
  | None => True
  | Some c =>
      c = EmptyString
      \/ exists code text,
          Collector.http_get w (Collector.METAR_ENDPOINT (Collector.upper c))
          = Collector.Status code text
          /\ (400 <= code
              \/ (2 <= List.length (Collector.split_lines text))%nat)
  end.

(** Ascending key. *)
Definition by_id (a b : MetarReport) : Prop := id a <= id b.

Definition row_by_id (a b : Row) : Prop := row_id a <= row_id b.

(** ** Sample data *)

Module Sample.

Definition EPWA : string := "EPWA".
Definition EPKK : string := "EPKK".

(** A report of [station] observed at [t] with temperature [tmp] and sky
    [sk]; the other metrics are present. *)
Definition report (station : string) (t : datetime) (tmp : option Q)
           (sk : option (list SkyLayer)) : MetarReportIn :=
  mkFields (Some station) (Some t) (Some 5%Q) (Some 270%Q) None None None
           (Some 9999%Q) None (Some 3%Q) sk tmp (Some 1015%Q).

Definition few_clouds : list SkyLayer := [("FEW"%string, Some 3000%Q)].

(** The table after three reports of EPWA at times 10, 20 and 30 were
    inserted out of order, with one report of EPKK in between. *)
Definition db3 : Database :=
  let d1 := fst (MeteoRepository.insert empty_db
                   (report EPWA 20 (Some 8%Q) (Some few_clouds))) in
  let d2 := fst (MeteoRepository.insert d1
                   (report EPKK 15 (Some 7%Q) (Some []))) in
  let d3 := fst (MeteoRepository.insert d2
                   (report EPWA 10 (Some 6%Q) (Some []))) in
  fst (MeteoRepository.insert d3 (report EPWA 30 (Some 13%Q) (Some []))).

(** A table holding one report of EPWA. *)
Definition db1 : Database :=
  fst (MeteoRepository.insert empty_db
         (report EPWA 10 (Some 6%Q) (Some few_clouds))).

(** A table holding two reports of EPWA, the second without temperature. *)
Definition db_gap : Database :=
  fst (MeteoRepository.insert db1 (report EPWA 20 None (Some []))).

(** A decoder for examples: a text of at least four characters that does
    not begin with a question mark decodes to an observation of the
    station named by its first four characters, with a temperature and no
    wind; anything else is rejected. *)
Definition sample_Metar : Decoder :=
  fun text =>
    match text with
    | String a (String b (String c (String d _))) =>
        if Ascii.eqb a "?"%char then Raise ParserError
        else Ok (mkObs (Some (String a (String b (String c (String d ""))))) 
                       (Some 0) None None None None None
                       (Some (mkDatum 9999%Q)) None (Some (mkDatum 3%Q))
                       [("FEW"%string, Some (mkDatum 3000%Q), None)]
                       (Some (mkDatum 8%Q)) (Some (mkDatum 1015%Q)))
    | _ => Raise ParserError
    end.

(** A station file as the report source serves it: a time stamp, then the
    report. *)
Definition station_file (station : string) : string :=
  ("2024/11/04 10:00" ++ String Collector.newline
     (station ++ " 041000Z 27005KT 9999 FEW030 08/03 Q1015"
        ++ String Collector.newline ""))%string.

(** A world in which the source knows EPWA, EPKK and EPGD and answers 404
    for every other station, and the API is reachable. *)
Definition world : Collector.World :=
  Collector.mkWorld
    (fun url =>
       if String.eqb url (Collector.METAR_ENDPOINT "EPWA")
       then Collector.Status 200 (station_file "EPWA")
       else if String.eqb url (Collector.METAR_ENDPOINT "EPKK")
       then Collector.Status 200 (station_file "EPKK")
       else if String.eqb url (Collector.METAR_ENDPOINT "EPGD")
       then Collector.Status 200 (station_file "EPGD")
       else Collector.Status 404 "")
    (fun _ => None).

(** The same world with the connection to the source down for EPKK. *)
Definition world_down : Collector.World :=
  Collector.mkWorld
    (fun url =>
       if String.eqb url (Collector.METAR_ENDPOINT "EPKK")
       then Collector.Failed ClientConnectionError
       else Collector.http_get world url)
    (fun _ => None).

Definition airport (code : string) : Collector.Airport :=
  Collector.mkAirport (Some code) code.

(** Five stations; the source has no file for two of them. *)
Definition five : list Collector.Airport :=
  [airport "epwa"; airport "EPXX"; airport "EPKK"; airport "EPYY";
   airport "EPGD"].

(** What the store returns for EPWA in [[10, 30]] on [db3], and for EPWA
    in [[0, 100]] on [db_gap]. *)
Definition reports3 : list MetarReport :=
  Eval vm_compute in
    match MeteoRepository.get_by_airport db3 EPWA (Some 10) (Some 30) with
    | Ok l => l
    | Raise _ => []
    end.

Definition reports_gap : list MetarReport :=
  Eval vm_compute in
    match MeteoRepository.get_by_airport db_gap EPWA (Some 0) (Some 100) with
    | Ok l => l
    | Raise _ => []
    end.

(** Three ways a run may unfold: the tasks complete in list order; the
    third, then the last, then the first of the tasks complete before the
    others; in list order, and after an exception two more tasks complete
    before the rest is cancelled. *)
Definition in_list_order : Collector.Schedule := Collector.mkSchedule [] 0.

Definition out_of_order : Collector.Schedule :=
  Collector.mkSchedule [2; 3; 0]%nat 0.

Definition two_stragglers : Collector.Schedule := Collector.mkSchedule [] 2.

(** A clock reader for examples: it knows two texts. *)
Definition sample_strptime : MeteoRouter.Strptime :=
  fun text =>
    if String.eqb text "2024-11-04 00:00:10" then Ok 10
    else if String.eqb text "2024-11-04 00:00:30" then Ok 30
    else Raise ValueError.

(** A database server that is up from the third attempt on. *)
Definition slow_engine : nat -> Db.attempt :=
  fun n => if (n <? 2)%nat then Db.Unavailable else Db.Created.

(** A database server that is never up. *)
Definition dead_engine : nat -> Db.attempt := fun _ => Db.Unavailable.

End Sample.

(** * Properties *)

(** ** The report model *)

Lemma value_if_spec (x : option Datum) : value_if x = option_map value x.
Proof. destruct x; reflexivity. Qed.

(** Each field of the result is read from its own attribute of the
    decoded object and from nothing else. *)
Lemma from_obs_fieldwise (obs : MetarObs) :
  icao_code (from_obs obs) = station_id obs
  /\ date_time (from_obs obs) = time obs
  /\ wind_speed (from_obs obs) = option_map value (obs_wind_speed obs)
  /\ wind_direction (from_obs obs) = option_map value (obs_wind_dir obs)
  /\ wind_var_from (from_obs obs) = option_map value (obs_wind_dir_from obs)
  /\ wind_var_to (from_obs obs) = option_map value (obs_wind_dir_to obs)
  /\ wind_gust (from_obs obs) = option_map value (obs_wind_gust obs)
  /\ rvr (from_obs obs) = option_map value (obs_vis obs)
  /\ rvr_direction (from_obs obs) = option_map value (obs_vis_dir obs)
  /\ dew_point (from_obs obs) = option_map value (obs_dewpt obs)
  /\ temp (from_obs obs) = option_map value (obs_temp obs)
  /\ qnh (from_obs obs) = option_map value (obs_press obs).
Proof. unfold from_obs; cbn; rewrite !value_if_spec; repeat split. Qed.

(** An exception of the decoder is the exception of [from_text_report]. *)
Lemma from_text_report_raises (Metar : Decoder) (report : string) (e : exn) :
  Metar report = Raise e -> from_text_report Metar report = Raise e.
Proof. intros H; unfold from_text_report; rewrite H; reflexivity. Qed.

Lemma from_text_report_ok (Metar : Decoder) (report : string) (r : MetarReportIn) :
  from_text_report Metar report = Ok r ->
  exists obs, Metar report = Ok obs /\ r = from_obs obs.
Proof.
  unfold from_text_report; destruct (Metar report) as [obs|e]; cbn; intros H.
  - exists obs; split; [reflexivity | congruence].
  - discriminate.
Qed.

(** ** The store *)

Section Store.

Import MeteoRepository.

(** Reading a row whose sky is stored never raises. *)
Lemma map_report_stored (r : Row) :
  sky (cols r) <> None ->
  _map_report (Some r)
  = Ok (Some (row_id r, body (observation_of r))).
Proof.
  intros H; unfold _map_report, observation_of; cbn.
  destruct (sky (cols r)) as [[l]|]; [reflexivity | contradiction].
Qed.

(** Reading a row whose sky is NULL raises. *)
Lemma map_report_null (r : Row) :
  sky (cols r) = None -> _map_report (Some r) = Raise TypeError.
Proof. intros H; unfold _map_report; rewrite H; reflexivity. Qed.

Lemma find_fresh (k : Z) (r : Row) (l : list Row) :
  Forall (fun x => row_id x < k) l -> row_id r = k ->
  find (fun x => row_id x =? k) (l ++ [r]) = Some r.
Proof.
  intros Hl Hr; induction Hl as [|x l Hx _ IH]; cbn.
  - rewrite Hr, Z.eqb_refl; reflexivity.
  - replace (row_id x =? k) with false by (symmetry; apply Z.eqb_neq; lia).
    exact IH.
Qed.

Lemma insert_db_ok (db : Database) (o : MetarReportIn) :
  db_ok db -> db_ok (fst (insert db o)).
Proof.
  unfold db_ok, insert; cbn; intros H.
  apply Forall_app; split.
  - eapply Forall_impl; [|exact H]; cbn; intros; lia.
  - constructor; [cbn; lia | constructor].
Qed.

Lemma insert_sky_stored (db : Database) (o : MetarReportIn) :
  sky o <> None -> sky_stored db -> sky_stored (fst (insert db o)).
Proof.
  unfold sky_stored, insert; cbn; intros Ho H.
  apply Forall_app; split; [exact H|].
  constructor; [|constructor]; cbn.
  destruct (sky o); [discriminate | contradiction].
Qed.

Lemma empty_db_ok : db_ok empty_db.
Proof. constructor. Qed.

Lemma empty_sky_stored : sky_stored empty_db.
Proof. constructor. Qed.

Lemma remove_db_ok (db : Database) (k : Z) :
  db_ok db -> db_ok (fst (remove_report db k)).
Proof.
  unfold db_ok, remove_report; cbn; intros H.
  apply Forall_forall; intros r Hr; apply filter_In in Hr.
  rewrite Forall_forall in H; apply H, Hr.
Qed.

(** The row just inserted is the one found under the new key, and it
    reads back as the report that was inserted when that has a sky list. *)
Lemma get_by_id_inserted (db : Database) (o : MetarReportIn) (l : list SkyLayer) :
  db_ok db -> sky o = Some l ->
  get_by_id (fst (insert db o)) (next_id db)
  = Ok (Some (mkReport (next_id db) o)).
Proof.
  intros Hok Hsky; unfold insert, get_by_id, fetch_by_id; cbn.
  rewrite (find_fresh (next_id db)); [|exact Hok|reflexivity].
  destruct o; cbn in *; subst; reflexivity.
Qed.

(** What [add_report] does to the table and what it returns, for a report
    with a sky list. *)
Lemma add_report_stored (db : Database) (o : MetarReportIn) (l : list SkyLayer) :
  db_ok db -> sky o = Some l ->
  add_report db o
  = (fst (insert db o), Ok (Some (mkReport (next_id db) o))).
Proof.
  intros Hok Hsky; unfold add_report.
  rewrite <- (get_by_id_inserted db o l Hok Hsky); reflexivity.
Qed.

(** With no sky, the row is written and reading it back raises. *)
Lemma add_report_without_sky (db : Database) (o : MetarReportIn) :
  db_ok db -> sky o = None ->
  snd (add_report db o) = Raise TypeError.
Proof.
  intros Hok Hsky; unfold add_report, insert, get_by_id, fetch_by_id; cbn.
  rewrite (find_fresh (next_id db)); [|exact Hok|reflexivity].
  cbn; rewrite Hsky; reflexivity.
Qed.

(** C5.  Round trip of the store.  For every observation [o] without an
    id that is valid, that is, whose sky is a list (possibly empty) as in
    the data model, on a table whose keys came from its sequence:
    [add_report] returns a stored report, and [get_by_id] at the id of that
    report returns a report whose fields other than [id] are those of [o]. *)
Theorem add_report_get_by_id_round_trip
        (db : Database) (o : MetarReportIn) (l : list SkyLayer) :
  db_ok db -> sky o = Some l ->
  exists inserted fetched,
    snd (add_report db o) = Ok (Some inserted)
    /\ get_by_id (fst (add_report db o)) (id inserted) = Ok (Some fetched)
    /\ body fetched = o.
Proof.
  intros Hok Hsky.
  rewrite (add_report_stored db o l Hok Hsky); cbn [fst snd].
  exists (mkReport (next_id db) o), (mkReport (next_id db) o).
  split; [reflexivity|]; split; [|reflexivity].
  exact (get_by_id_inserted db o l Hok Hsky).
Qed.

Lemma add_report_get_by_id_round_trip_witness :
  exists inserted fetched,
    snd (add_report Sample.db1 (Sample.report Sample.EPKK 15 None (Some [])))
    = Ok (Some inserted)
    /\ get_by_id
         (fst (add_report Sample.db1
                 (Sample.report Sample.EPKK 15 None (Some []))))
         (id inserted)
       = Ok (Some fetched)
    /\ body fetched = Sample.report Sample.EPKK 15 None (Some []).
Proof.
  apply (add_report_get_by_id_round_trip
           Sample.db1 (Sample.report Sample.EPKK 15 None (Some [])) []).
  - repeat constructor.
  - reflexivity.
Defined.

(** C8, as the code has it.  For every id of the key column's type (a
    signed 32-bit integer), [remove_report] returns no value ([None]),
    whether or not a row with that id existed; after it no row with that
    id is stored and every other row is stored as before. *)
Theorem remove_report_returns_nothing (db : Database) (report_id : Z) :
  int32 report_id ->
  snd (remove_report db report_id) = RetNone
  /\ fetch_by_id (fst (remove_report db report_id)) report_id = None
  /\ metars (fst (remove_report db report_id))
     = filter (fun r => negb (row_id r =? report_id)) (metars db).
Proof.
  intros _.
  split; [reflexivity|]; split; [|reflexivity].
  unfold fetch_by_id, remove_report; cbn.
  induction (metars db) as [|r l IH]; [reflexivity|]; cbn.
  destruct (row_id r =? report_id) eqn:E; cbn; [exact IH|].
  rewrite E; exact IH.
Qed.

Lemma remove_report_returns_nothing_witness :
  snd (remove_report Sample.db3 3) = RetNone
  /\ fetch_by_id (fst (remove_report Sample.db3 3)) 3 = None
  /\ metars (fst (remove_report Sample.db3 3))
     = filter (fun r => negb (row_id r =? 3)) (metars Sample.db3).
Proof.
  apply (remove_report_returns_nothing Sample.db3 3).
  unfold int32; lia.
Defined.

(** C8 as stated fails: a row with id 1 exists and is removed, and the
    value returned is not the boolean [True]. *)
Lemma remove_report_no_boolean :
  fetch_by_id Sample.db1 1 <> None
  /\ fetch_by_id (fst (remove_report Sample.db1 1)) 1 = None
  /\ snd (remove_report Sample.db1 1) <> RetBool true.
Proof. repeat split; discriminate. Qed.

(** On the text path the table keeps a pickled sky in every row. *)
Lemma add_text_report_sky_stored (Metar : Decoder) (db : Database) (text : string) :
  sky_stored db -> sky_stored (fst (add_text_report Metar db text)).
Proof.
  intros H; unfold add_text_report.
  destruct (from_text_report Metar text) as [r|e] eqn:E; [|exact H].
  apply from_text_report_ok in E; destruct E as (obs & _ & ->).
  apply (insert_sky_stored db (from_obs obs)); [discriminate | exact H].
Qed.

(** C10.  A report that [from_text_report] produces has a sky that is a
    list, possibly empty and never absent; hence the row [add_text_report]
    writes for it holds a pickle in its sky column, and [_map_report] reads
    that row back as the report without raising. *)
Theorem text_report_sky_is_a_list
        (Metar : Decoder) (db : Database) (text : string) (r : MetarReportIn) :
  from_text_report Metar text = Ok r ->
  (exists l, sky r = Some l)
  /\ (forall row,
        In row (metars (fst (add_text_report Metar db text))) ->
        ~ In row (metars db) ->
        sky (cols row) <> None
        /\ _map_report (Some row) = Ok (Some (row_id row, r))).
Proof.
  intros E.
  destruct (from_text_report_ok _ _ _ E) as (obs & _ & Hr).
  assert (Hsky : exists l, sky r = Some l) by (subst r; cbn; eauto).
  split; [exact Hsky|].
  intros row Hin Hnew.
  unfold add_text_report in Hin; rewrite E in Hin; cbn in Hin.
  apply in_app_or in Hin; destruct Hin as [Hin|[<-|[]]]; [contradiction|].
  destruct Hsky as (l & Hl); cbn; rewrite Hl; cbn.
  split; [discriminate|].
  destruct r; cbn in *; subst; reflexivity.
Qed.

Lemma text_report_sky_is_a_list_witness :
  exists r,
    from_text_report Sample.sample_Metar "EPWA 041000Z" = Ok r
    /\ (exists l, sky r = Some l)
    /\ (forall row,
          In row (metars (fst (add_text_report Sample.sample_Metar empty_db
                                 "EPWA 041000Z"))) ->
          ~ In row (metars empty_db) ->
          sky (cols row) <> None
          /\ _map_report (Some row) = Ok (Some (row_id row, r))).
Proof.
  eexists; split; [reflexivity|].
  apply (text_report_sky_is_a_list Sample.sample_Metar empty_db "EPWA 041000Z").
  reflexivity.
Defined.

End Store.

(** ** Queries by station and window *)

Section Query.

Import MeteoRepository.

Lemma date_leb_total (a b : option datetime) :
  date_leb a b = false -> date_leb b a = true.
Proof.
  destruct a as [x|], b as [y|]; cbn; try discriminate; try reflexivity.
  intros H; apply Z.leb_gt in H; apply Z.leb_le; lia.
Qed.

Lemma date_leb_trans (a b c : option datetime) :
  date_leb a b = true -> date_leb b c = true -> date_leb a c = true.
Proof.
  destruct a as [x|], b as [y|], c as [z|]; cbn;
    try discriminate; try reflexivity.
  rewrite !Z.leb_le; lia.
Qed.

Lemma insert_by_date_perm (r : Row) (l : list Row) :
  Permutation (insert_by_date r l) (r :: l).
Proof.
  induction l as [|h t IH]; cbn; [reflexivity|].
  destruct (date_leb _ _); [reflexivity|].
  rewrite IH; apply perm_swap.
Qed.

Lemma order_by_date_time_perm (l : list Row) :
  Permutation (order_by_date_time l) l.
Proof.
  induction l as [|h t IH]; cbn; [reflexivity|].
  rewrite insert_by_date_perm; constructor; exact IH.
Qed.

Lemma insert_by_date_hd (r x : Row) (l : list Row) :
  row_le x r -> HdRel row_le x l -> HdRel row_le x (insert_by_date r l).
Proof.
  intros Hxr Hl; destruct l as [|h t]; cbn; [constructor; exact Hxr|].
  destruct (date_leb _ _); constructor;
    [exact Hxr | inversion Hl; assumption].
Qed.

Lemma insert_by_date_sorted (r : Row) (l : list Row) :
  Sorted row_le l -> Sorted row_le (insert_by_date r l).
Proof.
  induction 1 as [|h t Ht IH Hhd]; cbn; [repeat constructor|].
  destruct (date_leb (date_time (cols r)) (date_time (cols h))) eqn:E.
  - constructor; [constructor; assumption | constructor; exact E].
  - constructor; [exact IH|].
    apply insert_by_date_hd; [apply date_leb_total, E | exact Hhd].
Qed.

Lemma order_by_date_time_sorted (l : list Row) :
  StronglySorted row_le (order_by_date_time l).
Proof.
  apply Sorted_StronglySorted.
  - intros a b c; apply date_leb_trans.
  - induction l as [|h t IH]; cbn; [constructor|].
    apply insert_by_date_sorted, IH.
Qed.

Lemma observation_order (a b : Row) :
  row_le a b -> not_after (observation_of a) (observation_of b).
Proof.
  unfold row_le, not_after; cbn.
  destruct (date_time (cols a)), (date_time (cols b)); cbn;
    try discriminate; try trivial.
  apply Z.leb_le.
Qed.

Lemma observations_sorted (l : list Row) :
  StronglySorted row_le l ->
  StronglySorted not_after (map observation_of l).
Proof.
  induction 1 as [|h t Ht IH Hall]; cbn; constructor; [exact IH|].
  apply Forall_map; eapply Forall_impl; [|exact Hall].
  intros b; apply observation_order.
Qed.

(** Rows with a stored sky are read back as their observations. *)
Lemma map_reports_stored (l : list Row) :
  Forall (fun r => sky (cols r) <> None) l ->
  map_reports l = Ok (map observation_of l).
Proof.
  induction 1 as [|r t Hr _ IH]; [reflexivity|].
  cbn [map_reports map]; rewrite (map_report_stored r Hr); cbn.
  rewrite IH; cbn; unfold to_report, observation_of; reflexivity.
Qed.

(** The WHERE clause selects the rows of the station in the window. *)
Lemma query_conditions_selected (icao : string)
      (start_date end_date : option datetime) (r : Row) :
  query_conditions icao start_date end_date r
  = selected icao start_date end_date r.
Proof.
  unfold query_conditions, selected, within, sql_eq, sql_ge, sql_le.
  rewrite <- andb_assoc.
  destruct start_date, end_date, (date_time (cols r)); reflexivity.
Qed.

(** What [within] says: each bound that is given is respected by a time
    stamp that exists. *)
Lemma within_spec (start_ end_ t : option datetime) :
  within start_ end_ t = true <->
  (forall s, start_ = Some s -> exists x, t = Some x /\ s <= x)
  /\ (forall e, end_ = Some e -> exists x, t = Some x /\ x <= e).
Proof.
  unfold within; rewrite andb_true_iff; split.
  - intros [Hs He]; split.
    + intros s ->; destruct t as [x|]; [|discriminate].
      exists x; split; [reflexivity | apply Z.leb_le, Hs].
    + intros e ->; destruct t as [x|]; [|destruct start_; discriminate].
      exists x; split; [reflexivity | apply Z.leb_le, He].
  - intros [Hs He]; split.
    + destruct start_ as [s|]; [|reflexivity].
      destruct (Hs s eq_refl) as (x & -> & Hx); apply Z.leb_le, Hx.
    + destruct end_ as [e|]; [|reflexivity].
      destruct (He e eq_refl) as (x & -> & Hx); apply Z.leb_le, Hx.
Qed.

(** C4.  On a table whose rows all carry a sky, for every station code
    and optional bounds, [get_by_airport] returns exactly the stored
    observations of that station whose time stamp lies in [[start, end]],
    both ends included and an absent bound not bounding (each as often as
    it is stored), in ascending order of the time stamp. *)
Theorem get_by_airport_window_ascending
        (db : Database) (icao : string) (start_date end_date : option datetime) :
  sky_stored db ->
  exists reports,
    get_by_airport db icao start_date end_date = Ok reports
    /\ Permutation reports
         (map observation_of
              (filter (selected icao start_date end_date) (metars db)))
    /\ StronglySorted not_after reports.
Proof.
  intros Hsky; unfold get_by_airport.
  set (chosen := filter (query_conditions icao start_date end_date) (metars db)).
  assert (Hchosen : chosen
                    = filter (selected icao start_date end_date) (metars db)).
  { apply filter_ext; intros r; apply query_conditions_selected. }
  exists (map observation_of (order_by_date_time chosen)); repeat split.
  - apply map_reports_stored.
    apply Forall_forall; intros r Hr.
    apply (Permutation_in _ (order_by_date_time_perm chosen)) in Hr.
    apply filter_In in Hr; destruct Hr as [Hr _].
    unfold sky_stored in Hsky; rewrite Forall_forall in Hsky; apply Hsky, Hr.
  - rewrite <- Hchosen; apply Permutation_map, order_by_date_time_perm.
  - apply observations_sorted, order_by_date_time_sorted.
Qed.

Lemma get_by_airport_window_ascending_witness :
  exists reports,
    get_by_airport Sample.db3 Sample.EPWA (Some 10) (Some 20) = Ok reports
    /\ Permutation reports
         (map observation_of
              (filter (selected Sample.EPWA (Some 10) (Some 20))
                      (metars Sample.db3)))
    /\ StronglySorted not_after reports.
Proof.
  apply (get_by_airport_window_ascending Sample.db3 Sample.EPWA
           (Some 10) (Some 20)).
  repeat constructor; discriminate.
Defined.

(** Observations at 10 < 20 < 30: the window [[10, 20]] gives the first
    two, in that order, and leaves out the third. *)
Example get_by_airport_t1_t2 :
  match get_by_airport Sample.db3 Sample.EPWA (Some 10) (Some 20) with
  | Ok reports => map (fun r => date_time (body r)) reports = [Some 10; Some 20]
  | Raise _ => False
  end.
Proof. reflexivity. Qed.

End Query.

(** ** Statistics *)

Section Stats.

Import MeteoRepository MeteoService.

Lemma all_floats_present (l : list (option Q)) :
  Forall (fun x => x <> None) l -> all_floats l = Some (present l).
Proof.
  induction 1 as [|x t Hx _ IH]; [reflexivity|].
  destruct x as [q|]; [|contradiction]; cbn; rewrite IH; reflexivity.
Qed.

Lemma all_floats_absent (l : list (option Q)) :
  ~ Forall (fun x => x <> None) l -> all_floats l = None.
Proof.
  induction l as [|x t IH]; intros H; [destruct H; constructor|].
  destruct x as [q|]; [|reflexivity]; cbn; rewrite IH; [reflexivity|].
  intros Ht; apply H; constructor; [discriminate | exact Ht].
Qed.

Lemma np_array_float (l : list (option Q)) :
  Forall (fun x => x <> None) l -> np_array l = FloatArray (present l).
Proof. intros H; unfold np_array; rewrite all_floats_present; auto. Qed.

Lemma np_array_object (l : list (option Q)) :
  ~ Forall (fun x => x <> None) l -> np_array l = ObjectArray l.
Proof. intros H; unfold np_array; rewrite all_floats_absent; auto. Qed.

Lemma present_dec (l : list (option Q)) :
  {Forall (fun x => x <> None) l} + {~ Forall (fun x => x <> None) l}.
Proof.
  apply Forall_dec; intros [q|]; [left; discriminate | right; auto].
Qed.

Lemma present_nonempty (l : list (option Q)) :
  l <> [] -> Forall (fun x => x <> None) l ->
  exists x xs, present l = x :: xs.
Proof.
  intros Hl H; destruct H as [|[q|] t Hx Ht]; [contradiction| |contradiction].
  cbn; eauto.
Qed.

Lemma Qmin_cases (x y : Q) : Qmin x y = x \/ Qmin x y = y.
Proof.
  unfold Qmin, GenericMinMax.gmin; destruct (x ?= y)%Q; auto.
Qed.

Lemma Qmax_cases (x y : Q) : Qmax x y = x \/ Qmax x y = y.
Proof.
  unfold Qmax, GenericMinMax.gmax; destruct (x ?= y)%Q; auto.
Qed.

Lemma fold_Qmin_is_min (xs : list Q) (x : Q) :
  is_min (x :: xs) (fold_left Qmin xs x).
Proof.
  revert x; induction xs as [|y ys IH]; intros x; cbn.
  - split; [left; reflexivity | constructor; [apply Qle_refl | constructor]].
  - destruct (IH (Qmin x y)) as [Hin Hle].
    inversion Hle as [|? ? Hm Hys]; subst.
    split.
    + destruct Hin as [<-|Hin].
      * destruct (Qmin_cases x y) as [-> | ->]; cbn; auto.
      * right; right; exact Hin.
    + constructor; [|constructor; [|exact Hys]].
      * eapply Qle_trans; [exact Hm | apply Q.le_min_l].
      * eapply Qle_trans; [exact Hm | apply Q.le_min_r].
Qed.

Lemma fold_Qmax_is_max (xs : list Q) (x : Q) :
  is_max (x :: xs) (fold_left Qmax xs x).
Proof.
  revert x; induction xs as [|y ys IH]; intros x; cbn.
  - split; [left; reflexivity | constructor; [apply Qle_refl | constructor]].
  - destruct (IH (Qmax x y)) as [Hin Hle].
    inversion Hle as [|? ? Hm Hys]; subst.
    split.
    + destruct Hin as [<-|Hin].
      * destruct (Qmax_cases x y) as [-> | ->]; cbn; auto.
      * right; right; exact Hin.
    + constructor; [|constructor; [|exact Hys]].
      * eapply Qle_trans; [apply Q.le_max_l | exact Hm].
      * eapply Qle_trans; [apply Q.le_max_r | exact Hm].
Qed.

(** The three reductions of a non-empty float array. *)
Lemma reductions_summarise (x : Q) (xs : list Q) :
  exists avg mn mx,
    np_mean (FloatArray (x :: xs)) = Ok avg
    /\ np_min (FloatArray (x :: xs)) = Ok mn
    /\ np_max (FloatArray (x :: xs)) = Ok mx
    /\ summarises (x :: xs) avg mn mx.
Proof.
  eexists _, _, _.
  split; [reflexivity|]; split; [reflexivity|]; split; [reflexivity|].
  exists (fold_left Qmin xs x), (fold_left Qmax xs x).
  split; [discriminate|].
  split; [reflexivity|]; split; [reflexivity|]; split; [reflexivity|].
  split; [apply fold_Qmin_is_min | apply fold_Qmax_is_max].
Qed.

Lemma Forall_metric (f : MetarReportIn -> option Q)
      (reports : list MetarReport) :
  Forall (fun x => x <> None) (map (fun r => f (body r)) reports)
  <-> Forall (fun r => f (body r) <> None) reports.
Proof.
  exact (Forall_map (fun r => f (body r)) (fun x => x <> None) reports).
Qed.

(** One metric of a non-empty list of reports: either every report has
    it and the three reductions give its summary, or some report lacks it
    and the mean raises. *)
Lemma metric_reductions (f : MetarReportIn -> option Q)
      (reports : list MetarReport) :
  reports <> [] ->
  (Forall (fun r => f (body r) <> None) reports
   /\ exists avg mn mx,
       np_mean (np_array (map (fun r => f (body r)) reports)) = Ok avg
       /\ np_min (np_array (map (fun r => f (body r)) reports)) = Ok mn
       /\ np_max (np_array (map (fun r => f (body r)) reports)) = Ok mx
       /\ summarises (present (metric f reports)) avg mn mx)
  \/ (~ Forall (fun r => f (body r) <> None) reports
      /\ np_mean (np_array (map (fun r => f (body r)) reports))
         = Raise TypeError).
Proof.
  intros Hne.
  destruct (present_dec (map (fun r => f (body r)) reports)) as [Hp|Hp].
  - left; split; [apply Forall_metric, Hp|].
    destruct (present_nonempty _ (fun E => Hne (map_eq_nil _ _ E)) Hp)
      as (x & xs & Hx).
    rewrite (np_array_float _ Hp); unfold metric; rewrite Hx.
    apply reductions_summarise.
  - right; split; [intros H; apply Hp, Forall_metric, H|].
    rewrite (np_array_object _ Hp); reflexivity.
Qed.

Ltac next_metric f reports Hne H :=
  let avg := fresh "avg" in
  let mn := fresh "mn" in
  let mx := fresh "mx" in
  let Eavg := fresh "Eavg" in
  let Emn := fresh "Emn" in
  let Emx := fresh "Emx" in
  destruct (metric_reductions f reports Hne)
    as [(H & avg & mn & mx & Eavg & Emn & Emx & _) | (H & Eavg)];
  [ rewrite Eavg, Emn, Emx; cbn [bind] | rewrite Eavg; cbn [bind] ].

(** [get_stats] over a non-empty list of complete reports: every
    reduction succeeds and the constructor is reached with the summaries. *)
Lemma get_stats_complete (db : Database) (icao : string)
      (s e : option datetime) (reports : list MetarReport) :
  get_by_airport db icao s e = Ok reports ->
  reports <> [] -> Forall complete reports ->
  exists ta tn tx wa wn wx ra rn rx da dn dx qa qn qx,
    get_stats db icao s e
    = new_MeteoStatsDTO s e icao ta tn tx wa wn wx ra rn rx da dn dx qa qn qx
    /\ summarises (present (metric temp reports)) ta tn tx
    /\ summarises (present (metric wind_speed reports)) wa wn wx
    /\ summarises (present (metric rvr reports)) ra rn rx
    /\ summarises (present (metric dew_point reports)) da dn dx
    /\ summarises (present (metric qnh reports)) qa qn qx.
Proof.
  intros Hget Hne Hall.
  assert (Hf : forall f : MetarReportIn -> option Q,
             (forall r, complete r -> f (body r) <> None) ->
             Forall (fun r => f (body r) <> None) reports).
  { intros f Hf; eapply Forall_impl; [|exact Hall]; exact Hf. }
  destruct (metric_reductions (@temp _) reports Hne)
    as [(_ & ta & tn & tx & Eta & Etn & Etx & St) | (Hn & _)];
    [|destruct Hn; apply Hf; unfold complete; tauto].
  destruct (metric_reductions (@wind_speed _) reports Hne)
    as [(_ & wa & wn & wx & Ewa & Ewn & Ewx & Sw) | (Hn & _)];
    [|destruct Hn; apply Hf; unfold complete; tauto].
  destruct (metric_reductions (@rvr _) reports Hne)
    as [(_ & ra & rn & rx & Era & Ern & Erx & Sr) | (Hn & _)];
    [|destruct Hn; apply Hf; unfold complete; tauto].
  destruct (metric_reductions (@dew_point _) reports Hne)
    as [(_ & da & dn & dx & Eda & Edn & Edx & Sd) | (Hn & _)];
    [|destruct Hn; apply Hf; unfold complete; tauto].
  destruct (metric_reductions (@qnh _) reports Hne)
    as [(_ & qa & qn & qx & Eqa & Eqn & Eqx & Sq) | (Hn & _)];
    [|destruct Hn; apply Hf; unfold complete; tauto].
  exists ta, tn, tx, wa, wn, wx, ra, rn, rx, da, dn, dx, qa, qn, qx.
  split; [|auto].
  unfold get_stats; rewrite Hget; cbn [bind].
  rewrite Eta, Etn, Etx, Ewa, Ewn, Ewx, Era, Ern, Erx, Eda, Edn, Edx,
    Eqa, Eqn, Eqx.
  reflexivity.
Qed.

(** [get_stats] over a non-empty list in which a report lacks a metric:
    the mean of that metric's array raises. *)
Lemma get_stats_incomplete (db : Database) (icao : string)
      (s e : option datetime) (reports : list MetarReport) :
  get_by_airport db icao s e = Ok reports ->
  reports <> [] -> ~ Forall complete reports ->
  get_stats db icao s e = Raise TypeError.
Proof.
  intros Hget Hne Hnot.
  unfold get_stats; rewrite Hget; cbn [bind].
  next_metric (@temp (option (list SkyLayer))) reports Hne Ht; [|reflexivity].
  next_metric (@wind_speed (option (list SkyLayer))) reports Hne Hw; [|reflexivity].
  next_metric (@rvr (option (list SkyLayer))) reports Hne Hr; [|reflexivity].
  next_metric (@dew_point (option (list SkyLayer))) reports Hne Hd; [|reflexivity].
  next_metric (@qnh (option (list SkyLayer))) reports Hne Hq; [|reflexivity].
  destruct Hnot; apply Forall_forall; intros r Hin.
  rewrite Forall_forall in Ht, Hw, Hr, Hd, Hq.
  unfold complete; auto 10.
Qed.

(** [get_stats] over an empty list: the mean of the empty array is [nan]
    and its minimum raises. *)
Lemma get_stats_empty (db : Database) (icao : string) (s e : option datetime) :
  get_by_airport db icao s e = Ok [] ->
  get_stats db icao s e = Raise ValueError.
Proof. intros Hget; unfold get_stats; rewrite Hget; reflexivity. Qed.

Lemma map_reports_raises (l : list Row) (e : exn) :
  map_reports l = Raise e -> e = TypeError.
Proof.
  induction l as [|r t IH]; cbn; [discriminate|].
  destruct (pickle_loads (sky (cols r))) as [sk|e'] eqn:E; cbn.
  - destruct (map_reports t) as [tl|e'']; cbn; [discriminate|].
    intros H; injection H as <-; apply IH; reflexivity.
  - destruct (sky (cols r)) as [[l]|]; cbn in E; [discriminate|].
    intros H; congruence.
Qed.

Lemma complete_dec (reports : list MetarReport) :
  {Forall complete reports} + {~ Forall complete reports}.
Proof.
  apply Forall_dec; intros r; unfold complete.
  destruct (temp (body r)), (wind_speed (body r)), (rvr (body r)),
    (dew_point (body r)), (qnh (body r));
    try (left; repeat split; discriminate); right; tauto.
Qed.

(** No path of [get_stats] raises the specification's [NoDataError]. *)
Lemma get_stats_never_NoDataError (db : Database) (icao : string)
      (s e : option datetime) :
  get_stats db icao s e <> Raise NoDataError.
Proof.
  destruct (get_by_airport db icao s e) as [reports|e'] eqn:Hget.
  - destruct reports as [|r t].
    + rewrite (get_stats_empty _ _ _ _ Hget); discriminate.
    + destruct (complete_dec (r :: t)) as [Hc|Hc].
      * destruct (get_stats_complete _ _ _ _ _ Hget ltac:(discriminate) Hc)
          as (ta & tn & tx & wa & wn & wx & ra & rn & rx & da & dn & dx
              & qa & qn & qx & -> & _).
        destruct s, e; discriminate.
      * rewrite (get_stats_incomplete _ _ _ _ _ Hget ltac:(discriminate) Hc).
        discriminate.
  - unfold get_stats; rewrite Hget; cbn.
    unfold get_by_airport in Hget; apply map_reports_raises in Hget.
    subst; discriminate.
Qed.

(** Without both bounds the constructor of the summary is never passed. *)
Lemma get_stats_needs_both_bounds (db : Database) (icao : string)
      (s e : option datetime) (dto : MeteoStatsDTO) :
  get_stats db icao s e = Ok dto -> s <> None /\ e <> None.
Proof.
  intros H.
  destruct (get_by_airport db icao s e) as [reports|e'] eqn:Hget.
  - destruct reports as [|r t].
    + rewrite (get_stats_empty _ _ _ _ Hget) in H; discriminate.
    + destruct (complete_dec (r :: t)) as [Hc|Hc].
      * destruct (get_stats_complete _ _ _ _ _ Hget ltac:(discriminate) Hc)
          as (ta & tn & tx & wa & wn & wx & ra & rn & rx & da & dn & dx
              & qa & qn & qx & E & _).
        rewrite E in H; destruct s, e; try discriminate.
        split; discriminate.
      * rewrite (get_stats_incomplete _ _ _ _ _ Hget ltac:(discriminate) Hc)
          in H.
        discriminate.
  - unfold get_stats in H; rewrite Hget in H; discriminate.
Qed.




(** C2, as the code has it.  For every station and window whose filtered
    observation set is empty, [get_stats] fails and returns no summary; the
    failure is the [ValueError] of the minimum of an empty array. *)
Theorem get_stats_empty_window
        (db : Database) (icao : string) (s e : option datetime) :
  get_by_airport db icao s e = Ok [] ->
  get_stats db icao s e = Raise ValueError.
Proof. apply get_stats_empty. Qed.

Lemma get_stats_empty_window_witness :
  get_stats empty_db Sample.EPWA (Some 0) (Some 100) = Raise ValueError.
Proof.
  apply (get_stats_empty_window empty_db Sample.EPWA (Some 0) (Some 100)).
  reflexivity.
Defined.

(** C2 as stated fails: on an empty table the filtered set is empty and
    the failure of [get_stats] is not [NoDataError]. *)
Lemma get_stats_empty_not_NoDataError :
  get_by_airport empty_db Sample.EPWA (Some 0) (Some 100) = Ok []
  /\ get_stats empty_db Sample.EPWA (Some 0) (Some 100) <> Raise NoDataError.
Proof. split; [reflexivity | discriminate]. Qed.

(** C6 fails on the code.  The table holds one complete observation of
    EPWA; with both bounds absent the store returns it, and [get_stats]
    raises [ValidationError] where the claim has it return a summary. *)
Theorem get_stats_all_time_rejected :
  get_by_airport Sample.db1 Sample.EPWA None None
  = Ok [observation_of (mkRow 1 (set_sky
          (Sample.report Sample.EPWA 10 (Some 6%Q) (Some Sample.few_clouds))
          (Some (Pickled Sample.few_clouds))))]
  /\ get_stats Sample.db1 Sample.EPWA None None = Raise ValidationError.
Proof. split; reflexivity. Qed.

End Stats.

(** ** The collector *)

Section Collect.

Import Collector.

Lemma append_nil_r_local (s : string) : (s ++ "")%string = s.
Proof. induction s as [|c r IH]; cbn; [|rewrite IH]; reflexivity. Qed.

Lemma split_lines_one_line (s : string) :
  one_line s = true -> split_lines s = [s].
Proof.
  induction s as [|c r IH]; cbn; [reflexivity|].
  destruct (Ascii.eqb c newline); cbn; [discriminate|].
  intros H; rewrite (IH H); reflexivity.
Qed.

Lemma split_lines_first (first rest : string) :
  one_line first = true ->
  split_lines (first ++ String newline rest) = first :: split_lines rest.
Proof.
  induction first as [|c r IH]; cbn.
  - intros _; reflexivity.
  - destruct (Ascii.eqb c newline); cbn; [discriminate|].
    intros H; rewrite (IH H); reflexivity.
Qed.

(** The lines of a text whose first two lines are [first] and [second]. *)
Lemma split_lines_two (first second tail : string) :
  one_line first = true -> one_line second = true ->
  tail = EmptyString \/ (exists rest, tail = String newline rest) ->
  exists more,
    split_lines (first ++ String newline (second ++ tail))
    = first :: second :: more.
Proof.
  intros H1 H2 [-> | (rest & ->)]; rewrite (split_lines_first _ _ H1).
  - rewrite append_nil_r_local, (split_lines_one_line _ H2).
    exists []; reflexivity.
  - rewrite (split_lines_first _ _ H2); eauto.
Qed.

(** C9.  The report source answers a request for a station with the
    station's file: a heading line (the time stamp of the observation),
    a line break, and the report below it.  For every answer of the
    source with a status below 400 whose text has that shape (a heading
    line, then a report line, then nothing more or a line break and more
    text), [fetch_metar] returns exactly the first report line, the line
    below the heading, as the raw report. *)
Theorem fetch_metar_first_report_line
        (w : World) (icao : string) (code : Z) (stamp report tail : string) :
  http_get w (METAR_ENDPOINT (upper icao))
  = Status code (stamp ++ String newline (report ++ tail)) ->
  code < 400 ->
  one_line stamp = true -> one_line report = true ->
  tail = EmptyString \/ (exists rest, tail = String newline rest) ->
  fetch_metar w icao = Ok (Some report).
Proof.
  intros Hget Hcode H1 H2 Htail.
  destruct (split_lines_two stamp report tail H1 H2 Htail) as (more & Hl).
  unfold fetch_metar; rewrite Hget; cbn.
  replace (400 <=? code) with false by (symmetry; apply Z.leb_gt; lia).
  cbn; rewrite Hl; reflexivity.
Qed.

Lemma fetch_metar_first_report_line_witness :
  fetch_metar Sample.world "epwa"
  = Ok (Some "EPWA 041000Z 27005KT 9999 FEW030 08/03 Q1015"%string).
Proof.
  apply (fetch_metar_first_report_line Sample.world "epwa" 200
           "2024/11/04 10:00" "EPWA 041000Z 27005KT 9999 FEW030 08/03 Q1015"
           (String newline "")).
  - reflexivity.
  - lia.
  - reflexivity.
  - reflexivity.
  - right; exists EmptyString; reflexivity.
Defined.

(** The route stores the report exactly when the decoder accepts it, and
    answers in every case. *)
Lemma create_report_stores (Metar : Decoder) (db : Database) (report : string) :
  fst (create_report Metar db report)
  = match Metar report with
    | Ok obs => fst (MeteoRepository.insert db (from_obs obs))
    | Raise _ => db
    end.
Proof.
  unfold create_report, MeteoRepository.add_text_report, from_text_report.
  destruct (Metar report) as [obs|e]; cbn; [|reflexivity].
  destruct (MeteoRepository.get_by_id _ _) as [[r|]|e]; reflexivity.
Qed.

Lemma create_report_status (Metar : Decoder) (db : Database) (report : string) :
  snd (create_report Metar db report) = 201
  \/ snd (create_report Metar db report) = 500.
Proof.
  unfold create_report.
  destruct (MeteoRepository.add_text_report Metar db report) as [db' [[r|]|e]];
    cbn; auto.
Qed.

(** With the API reachable, posting a report never raises. *)
Lemma post_metar_settles (w : World) (Metar : Decoder) (db : Database)
      (metar_data : string) :
  post_failure w metar_data = None ->
  post_metar w Metar db metar_data
  = (fst (create_report Metar db metar_data), Ok tt).
Proof.
  intros Hpost; unfold post_metar; rewrite Hpost.
  destruct (create_report_status Metar db metar_data) as [H|H];
    destruct (create_report Metar db metar_data) as [db' code];
    cbn in H; subst; reflexivity.
Qed.

(** One station whose fetch settles: the task ends without raising and
    stores what [report_of] says. *)
Lemma process_airport_settles (w : World) (Metar : Decoder) (db : Database)
      (a : Airport) :
  (forall d, post_failure w d = None) ->
  fetch_settles w a ->
  process_airport w Metar db a
  = (match report_of w Metar a with
     | Some o => fst (MeteoRepository.insert db o)
     | None => db
     end,
     Ok tt).
Proof.
  intros Hpost Hfetch.
  unfold process_airport, report_of, fetch_settles in *.
  destruct (airport_icao_code a) as [c|]; [|reflexivity].
  cbn [truthy_str].
  destruct (String.eqb c EmptyString) eqn:Ec; [reflexivity|]; cbn [negb].
  destruct Hfetch as [-> | (code & text & Hget & Hcase)];
    [rewrite String.eqb_refl in Ec; discriminate|].
  unfold fetch_metar; rewrite Hget; cbn [raise_for_status].
  destruct (400 <=? code) eqn:Ecode; cbn [bind]; [reflexivity|].
  destruct Hcase as [Hcode | Hlen]; [apply Z.leb_gt in Ecode; lia|].
  destruct (split_lines text) as [|l0 [|line more]]; cbn in Hlen; try lia.
  cbn [nth_error truthy_str].
  destruct (String.eqb line EmptyString); cbn [negb]; [reflexivity|].
  rewrite (post_metar_settles w Metar db line (Hpost line)).
  rewrite create_report_stores.
  destruct (Metar line); reflexivity.
Qed.

Lemma take_nth_perm (A : Type) (k : nat) (l : list A) (a : A) (rest : list A) :
  take_nth k l = Some (a, rest) -> Permutation l (a :: rest).
Proof.
  revert k a rest; induction l as [|x t IH]; intros k a rest;
    [cbn; discriminate|].
  destruct k as [|k]; cbn.
  - intros H; injection H as <- <-; reflexivity.
  - destruct (take_nth k t) as [[y t']|] eqn:E; [|discriminate].
    intros H; injection H as <- <-.
    rewrite (IH _ _ _ E); apply perm_swap.
Qed.

Lemma take_nth_some (A : Type) (k : nat) (l : list A) :
  (k < List.length l)%nat -> exists a rest, take_nth k l = Some (a, rest).
Proof.
  revert k; induction l as [|x t IH]; intros k Hk; cbn in Hk; [lia|].
  destruct k as [|k]; cbn; [eauto|].
  destruct (IH k ltac:(lia)) as (a & rest & ->); eauto.
Qed.

(** The next task to complete is one of the pending ones. *)
Lemma next_task (arrival : list nat) (a : Airport) (pending : list Airport) :
  exists b rest,
    take_nth (Nat.modulo (hd O arrival) (List.length (a :: pending)))
             (a :: pending)
    = Some (b, rest)
    /\ Permutation (a :: pending) (b :: rest).
Proof.
  destruct (take_nth_some _ (Nat.modulo (hd O arrival)
                                        (List.length (a :: pending)))
                          (a :: pending)) as (b & rest & E).
  - apply Nat.mod_upper_bound; discriminate.
  - exists b, rest; split; [exact E | exact (take_nth_perm _ _ _ _ _ E)].
Qed.

(** What is stored for a list of airports does not depend on their order,
    but for its own order. *)
Lemma stored_reports_perm (w : World) (Metar : Decoder) (l l' : list Airport) :
  Permutation l l' ->
  Permutation (stored_reports w Metar l) (stored_reports w Metar l').
Proof.
  induction 1 as [|x l l' _ IH|x y l|l l1 l2 _ IH1 _ IH2]; cbn.
  - reflexivity.
  - destruct (report_of w Metar x); [constructor|]; exact IH.
  - destruct (report_of w Metar x), (report_of w Metar y);
      try reflexivity; apply perm_swap.
  - etransitivity; eassumption.
Qed.

(** When no task raises, the loop runs every pending task, in the order
    of the schedule. *)
Lemma gather_loop_settles (w : World) (Metar : Decoder) (s steps : nat)
      (arrival : list nat) (pending : list Airport) (db : Database) :
  (forall d, post_failure w d = None) ->
  Forall (fetch_settles w) pending ->
  (List.length pending <= steps)%nat ->
  exists stored,
    Permutation stored (stored_reports w Metar pending)
    /\ gather_loop w Metar s steps arrival None pending db (Ok tt)
       = (insert_all db stored, Ok tt).
Proof.
  intros Hpost; revert arrival pending db.
  induction steps as [|steps IH]; intros arrival pending db Hall Hlen.
  - destruct pending; [|cbn in Hlen; lia].
    exists []; split; reflexivity.
  - destruct pending as [|a pending]; [exists []; split; reflexivity|].
    destruct (next_task arrival a pending) as (b & rest & E & Hperm).
    cbn [gather_loop]; rewrite E.
    assert (Hall' : Forall (fetch_settles w) (b :: rest)).
    { apply Forall_forall; intros x Hx.
      rewrite Forall_forall in Hall; apply Hall.
      eapply Permutation_in; [symmetry; exact Hperm | exact Hx]. }
    inversion Hall' as [|? ? Hb Hrest]; subst.
    rewrite (process_airport_settles w Metar db b Hpost Hb).
    pose proof (Permutation_length Hperm) as Hl; cbn in Hl, Hlen.
    destruct (IH (tl arrival) rest
                 (match report_of w Metar b with
                  | Some o => fst (MeteoRepository.insert db o)
                  | None => db
                  end) Hrest ltac:(lia)) as (stored & Hs & Eq).
    rewrite Eq.
    destruct (report_of w Metar b) as [o|] eqn:Eb.
    + exists (o :: stored); split; [|reflexivity].
      rewrite (stored_reports_perm w Metar _ _ Hperm); cbn; rewrite Eb.
      constructor; exact Hs.
    + exists stored; split; [|reflexivity].
      rewrite (stored_reports_perm w Metar _ _ Hperm); cbn; rewrite Eb.
      exact Hs.
Qed.

(** C3, as the code has it.  In one run over any station list in which
    every fetch ends in an answer of the source, with an error status or
    with a text of two lines or more, and the API is reachable, and in
    whatever order the tasks complete: the run completes without raising,
    the report of every station whose fetch and decoding succeed is
    inserted, and every other station is skipped; the table after the run
    is the table before it with those reports inserted, in some order. *)
Theorem main_skips_failed_stations
        (w : World) (Metar : Decoder) (db : Database) (airports : list Airport)
        (sched : Schedule) :
  (forall d, post_failure w d = None) ->
  Forall (fetch_settles w) airports ->
  exists stored,
    Permutation stored (stored_reports w Metar airports)
    /\ main w Metar db airports sched = (insert_all db stored, Ok tt).
Proof.
  intros Hpost Hall; unfold main, gather.
  apply gather_loop_settles; [exact Hpost | exact Hall | lia].
Qed.

(** Each inserted report is one more row. *)
Lemma insert_all_length (db : Database) (l : list MetarReportIn) :
  List.length (metars (insert_all db l))
  = (List.length (metars db) + List.length l)%nat.
Proof.
  revert db; induction l as [|o t IH]; intros db; cbn; [lia|].
  unfold insert_all in IH; rewrite IH; cbn.
  rewrite length_app; cbn; lia.
Qed.

Lemma sample_fetches_settle : Forall (fetch_settles Sample.world) Sample.five.
Proof.
  unfold Sample.five.
  apply Forall_cons.
  { right; exists 200, (Sample.station_file "EPWA"); split; [reflexivity|].
    right; cbn; lia. }
  apply Forall_cons.
  { right; exists 404, EmptyString; split; [reflexivity | left; lia]. }
  apply Forall_cons.
  { right; exists 200, (Sample.station_file "EPKK"); split; [reflexivity|].
    right; cbn; lia. }
  apply Forall_cons.
  { right; exists 404, EmptyString; split; [reflexivity | left; lia]. }
  apply Forall_cons.
  { right; exists 200, (Sample.station_file "EPGD"); split; [reflexivity|].
    right; cbn; lia. }
  apply Forall_nil.
Defined.

(** Five stations, the fetch fails for two of them, the tasks complete
    out of list order: three observations are stored and the run does not
    raise. *)
Lemma main_skips_failed_stations_witness :
  exists stored,
    Permutation stored
      (stored_reports Sample.world Sample.sample_Metar Sample.five)
    /\ main Sample.world Sample.sample_Metar empty_db Sample.five
            Sample.out_of_order
       = (insert_all empty_db stored, Ok tt).
Proof.
  apply (main_skips_failed_stations Sample.world Sample.sample_Metar
           empty_db Sample.five Sample.out_of_order).
  - reflexivity.
  - exact sample_fetches_settle.
Defined.

(** In that run the rows are those of EPKK, EPGD and EPWA, in the order
    of completion. *)
Example main_out_of_order :
  map (fun r => (row_id r, icao_code (cols r)))
      (metars (fst (main Sample.world Sample.sample_Metar empty_db
                         Sample.five Sample.out_of_order)))
  = [(1, Some "EPKK"%string); (2, Some "EPGD"%string);
     (3, Some "EPWA"%string)]
  /\ List.length (stored_reports Sample.world Sample.sample_Metar Sample.five)
     = 3%nat.
Proof. split; reflexivity. Qed.

(** C3 as stated fails: of the same five stations the connection to the
    source fails for one, and the run raises (here after the first
    station was stored, and with the last one stored before the rest is
    cancelled). *)
Lemma main_aborted_by_one_station :
  fetch_metar Sample.world_down "EPKK" = Raise ClientConnectionError
  /\ snd (main Sample.world_down Sample.sample_Metar empty_db Sample.five
               Sample.two_stragglers)
     = Raise ClientConnectionError
  /\ map (fun r => icao_code (cols r))
         (metars (fst (main Sample.world_down Sample.sample_Metar empty_db
                            Sample.five Sample.two_stragglers)))
     = [Some "EPWA"%string; Some "EPGD"%string].
Proof. repeat split; reflexivity. Qed.

End Collect.

(** * Further properties of the store *)

Section StoreMore.

Import MeteoRepository.

Lemma fetch_by_id_none (db : Database) (k : Z) :
  fetch_by_id db k = None <-> Forall (fun r => row_id r <> k) (metars db).
Proof.
  unfold fetch_by_id; induction (metars db) as [|r l IH]; cbn.
  - split; [constructor | reflexivity].
  - destruct (row_id r =? k) eqn:E.
    + split; [discriminate|].
      intros H; inversion H as [|? ? Hr _]; subst.
      apply Z.eqb_eq in E; contradiction.
    + rewrite IH; split; intros H.
      * constructor; [apply Z.eqb_neq, E | exact H].
      * inversion H; assumption.
Qed.

Lemma get_by_id_none (db : Database) (k : Z) :
  get_by_id db k = Ok None <-> fetch_by_id db k = None.
Proof.
  unfold get_by_id; destruct (fetch_by_id db k) as [r|]; cbn.
  - destruct (pickle_loads (sky (cols r))); cbn; split; discriminate.
  - split; reflexivity.
Qed.

(** X1.  For an id of the key column's type, [get_by_id] answers [None],
    without raising, exactly when no stored row has that id. *)
Theorem get_by_id_absent (db : Database) (k : Z) :
  int32 k ->
  (get_by_id db k = Ok None <-> Forall (fun r => row_id r <> k) (metars db)).
Proof. intros _; rewrite get_by_id_none; apply fetch_by_id_none. Qed.

Lemma get_by_id_absent_witness :
  get_by_id Sample.db3 7 = Ok None
  <-> Forall (fun r => row_id r <> 7) (metars Sample.db3).
Proof. apply (get_by_id_absent Sample.db3 7); unfold int32; lia. Defined.

Lemma fetch_after_remove (db : Database) (k k' : Z) :
  fetch_by_id (fst (remove_report db k)) k'
  = if k' =? k then None else fetch_by_id db k'.
Proof.
  unfold fetch_by_id, remove_report; cbn.
  induction (metars db) as [|r l IH]; cbn; [destruct (k' =? k); reflexivity|].
  destruct (row_id r =? k) eqn:E; cbn.
  - rewrite IH; destruct (k' =? k) eqn:E'; [reflexivity|].
    apply Z.eqb_eq in E; apply Z.eqb_neq in E'.
    replace (row_id r =? k') with false by (symmetry; apply Z.eqb_neq; lia).
    reflexivity.
  - destruct (row_id r =? k') eqn:E2; [|exact IH].
    apply Z.eqb_eq in E2; apply Z.eqb_neq in E.
    replace (k' =? k) with false by (symmetry; apply Z.eqb_neq; lia).
    reflexivity.
Qed.

(** X2.  For ids of the key column's type: after [remove_report] of an id,
    [get_by_id] finds nothing under that id and answers for every other
    id as it did before. *)
Theorem remove_report_then_get_by_id (db : Database) (k k' : Z) :
  int32 k -> int32 k' ->
  get_by_id (fst (remove_report db k)) k'
  = if k' =? k then Ok None else get_by_id db k'.
Proof.
  intros _ _; unfold get_by_id; rewrite fetch_after_remove.
  destruct (k' =? k); reflexivity.
Qed.

Lemma remove_report_then_get_by_id_witness :
  get_by_id (fst (remove_report Sample.db3 3)) 1
  = if 1 =? 3 then Ok None else get_by_id Sample.db3 1.
Proof.
  apply (remove_report_then_get_by_id Sample.db3 3 1); unfold int32; lia.
Defined.

Lemma filter_all (A : Type) (f : A -> bool) (l : list A) :
  Forall (fun x => f x = true) l -> filter f l = l.
Proof.
  induction 1 as [|x t Hx _ IH]; cbn; [reflexivity|].
  rewrite Hx, IH; reflexivity.
Qed.

(** X3.  [remove_report] of a key that no row has leaves the table as it is. *)
Theorem remove_report_absent (db : Database) (k : Z) :
  Forall (fun r => row_id r <> k) (metars db) ->
  fst (remove_report db k) = db.
Proof.
  intros H; unfold remove_report; cbn.
  rewrite filter_all; [destruct db; reflexivity|].
  eapply Forall_impl; [|exact H]; cbn; intros r Hr.
  apply negb_true_iff, Z.eqb_neq, Hr.
Qed.

Lemma remove_report_absent_witness :
  fst (remove_report Sample.db3 7) = Sample.db3.
Proof.
  apply (remove_report_absent Sample.db3 7).
  repeat constructor; discriminate.
Defined.

Lemma find_snoc_other (f : Row -> bool) (l : list Row) (r : Row) :
  f r = false -> find f (l ++ [r]) = find f l.
Proof.
  intros Hr; induction l as [|x t IH]; cbn; [rewrite Hr; reflexivity|].
  destruct (f x); [reflexivity | exact IH].
Qed.

Lemma get_by_id_after_insert (db : Database) (o : MetarReportIn) (k : Z) :
  k <> next_id db ->
  get_by_id (fst (insert db o)) k = get_by_id db k.
Proof.
  intros Hk; unfold get_by_id, fetch_by_id, insert; cbn.
  rewrite find_snoc_other; [reflexivity|].
  cbn; apply Z.eqb_neq; lia.
Qed.

(** X4.  [add_report] does not disturb what is stored: under every key but the
    new one, [get_by_id] answers after it as before (also when the added
    report has no sky and the call itself raises). *)
Theorem add_report_keeps_others (db : Database) (o : MetarReportIn) (k : Z) :
  k <> next_id db ->
  get_by_id (fst (add_report db o)) k = get_by_id db k.
Proof. intros Hk; unfold add_report; cbn; apply get_by_id_after_insert, Hk. Qed.

Lemma add_report_keeps_others_witness :
  get_by_id (fst (add_report Sample.db1 (Sample.report Sample.EPKK 15 None None))) 1
  = get_by_id Sample.db1 1.
Proof.
  apply (add_report_keeps_others Sample.db1
           (Sample.report Sample.EPKK 15 None None) 1).
  discriminate.
Defined.

Lemma insert_all_ok (db : Database) (l : list MetarReportIn) :
  db_ok db -> db_ok (insert_all db l) /\ next_id db <= next_id (insert_all db l).
Proof.
  revert db; induction l as [|o t IH]; intros db Hok; cbn; [split; [auto|lia]|].
  destruct (IH _ (insert_db_ok db o Hok)) as [H1 H2]; split; [exact H1|].
  cbn in H2; unfold insert_all in *; cbn in *; lia.
Qed.

Lemma insert_all_keeps (db : Database) (l : list MetarReportIn) (k : Z) :
  k < next_id db -> get_by_id (insert_all db l) k = get_by_id db k.
Proof.
  revert db; induction l as [|o t IH]; intros db Hk; cbn; [reflexivity|].
  unfold insert_all in *; cbn [fold_left].
  rewrite IH; [|cbn; lia].
  apply get_by_id_after_insert; lia.
Qed.

(** X5.  Reports with a sky that are inserted one after the other get the keys
    that follow the last one handed out, and each can be fetched under its
    own key when all are in. *)
Theorem insert_all_retrievable
        (db : Database) (l : list MetarReportIn) (i : nat) (o : MetarReportIn) :
  db_ok db -> Forall (fun o => sky o <> None) l ->
  nth_error l i = Some o ->
  get_by_id (insert_all db l) (next_id db + Z.of_nat i)
  = Ok (Some (mkReport (next_id db + Z.of_nat i) o)).
Proof.
  intros Hok Hsky; revert db i Hok.
  induction Hsky as [|o' t Ho' _ IH]; intros db i Hok Hn.
  - destruct i; discriminate.
  - destruct i as [|j]; cbn in Hn.
    + injection Hn as ->.
      unfold insert_all; cbn [fold_left]; fold (insert_all (fst (insert db o)) t).
      rewrite insert_all_keeps; [|cbn; lia].
      rewrite Z.add_0_r.
      destruct (sky o) as [sk|] eqn:E; [|contradiction].
      exact (get_by_id_inserted db o sk Hok E).
    + unfold insert_all; cbn [fold_left]; fold (insert_all (fst (insert db o')) t).
      specialize (IH (fst (insert db o')) j (insert_db_ok db o' Hok) Hn).
      cbn [insert fst next_id] in IH.
      replace (next_id db + Z.of_nat (S j)) with (next_id db + 1 + Z.of_nat j)
        by lia.
      exact IH.
Qed.

Lemma insert_all_retrievable_witness :
  get_by_id
    (insert_all Sample.db1
       [Sample.report Sample.EPKK 15 None (Some []);
        Sample.report Sample.EPWA 20 None (Some Sample.few_clouds)])
    (next_id Sample.db1 + Z.of_nat 1)
  = Ok (Some (mkReport (next_id Sample.db1 + Z.of_nat 1)
                       (Sample.report Sample.EPWA 20 None
                                      (Some Sample.few_clouds)))).
Proof.
  apply (insert_all_retrievable Sample.db1
           [Sample.report Sample.EPKK 15 None (Some []);
            Sample.report Sample.EPWA 20 None (Some Sample.few_clouds)]
           1).
  - repeat constructor.
  - repeat constructor; discriminate.
  - reflexivity.
Defined.

End StoreMore.

(** * Further properties of reading and listing *)

Section ReadMore.

Import MeteoRepository.

Lemma rows_null_dec (l : list Row) :
  {Forall (fun r => sky (cols r) <> None) l}
  + {Exists (fun r => sky (cols r) = None) l}.
Proof.
  induction l as [|r t [IH|IH]].
  - left; constructor.
  - destruct (sky (cols r)) eqn:E.
    + left; constructor; [rewrite E; discriminate | exact IH].
    + right; left; exact E.
  - right; right; exact IH.
Qed.

(** A row with a NULL sky makes the mapping of a whole result raise. *)
Lemma map_reports_null (l : list Row) :
  Exists (fun r => sky (cols r) = None) l -> map_reports l = Raise TypeError.
Proof.
  induction l as [|r t IH]; intros H; [inversion H|].
  cbn [map_reports].
  destruct (sky (cols r)) as [[sk]|] eqn:E.
  - unfold _map_report; rewrite E; cbn.
    rewrite IH; [reflexivity|].
    inversion H as [? ? Hr|? ? Ht]; subst; [congruence | exact Ht].
  - rewrite (map_report_null r E); reflexivity.
Qed.

Lemma map_reports_ok_inv (l : list Row) (reports : list MetarReport) :
  map_reports l = Ok reports ->
  reports = map observation_of l
  /\ Forall (fun r => sky (cols r) <> None) l.
Proof.
  intros H; destruct (rows_null_dec l) as [Hs|Hn].
  - rewrite (map_reports_stored l Hs) in H; injection H as <-; auto.
  - rewrite (map_reports_null l Hn) in H; discriminate.
Qed.

Lemma map_reports_raise_iff (l : list Row) :
  map_reports l = Raise TypeError
  <-> Exists (fun r => sky (cols r) = None) l.
Proof.
  split; [|apply map_reports_null].
  intros H; destruct (rows_null_dec l) as [Hs|Hn]; [|exact Hn].
  rewrite (map_reports_stored l Hs) in H; discriminate.
Qed.

Lemma Exists_perm (A : Type) (P : A -> Prop) (l l' : list A) :
  Permutation l l' -> Exists P l -> Exists P l'.
Proof.
  intros Hp H; apply Exists_exists in H; destruct H as (x & Hin & Hx).
  apply Exists_exists; exists x; split; [|exact Hx].
  eapply Permutation_in; eassumption.
Qed.

(** X6.  [get_by_airport] raises, with [TypeError], exactly when a row it
    selects has a NULL sky; rows of other stations or outside the window do
    not matter. *)
Theorem get_by_airport_raises_iff
        (db : Database) (icao : string) (start_date end_date : option datetime) :
  get_by_airport db icao start_date end_date = Raise TypeError
  <-> Exists (fun r => selected icao start_date end_date r = true
                       /\ sky (cols r) = None) (metars db).
Proof.
  unfold get_by_airport; rewrite map_reports_raise_iff.
  set (chosen := filter (query_conditions icao start_date end_date) (metars db)).
  split; intros H.
  - apply (Exists_perm _ _ _ _ (order_by_date_time_perm chosen)) in H.
    apply Exists_exists in H; destruct H as (r & Hin & Hr).
    apply filter_In in Hin; destruct Hin as [Hin Hq].
    rewrite query_conditions_selected in Hq.
    apply Exists_exists; exists r; auto.
  - apply (Exists_perm _ _ chosen);
      [symmetry; apply order_by_date_time_perm|].
    apply Exists_exists in H; destruct H as (r & Hin & Hsel & Hr).
    apply Exists_exists; exists r; split; [|exact Hr].
    apply filter_In; split; [exact Hin|].
    rewrite query_conditions_selected; exact Hsel.
Qed.

Lemma insert_by_id_perm (r : Row) (l : list Row) :
  Permutation (insert_by_id r l) (r :: l).
Proof.
  induction l as [|h t IH]; cbn; [reflexivity|].
  destruct (row_id r <=? row_id h); [reflexivity|].
  rewrite IH; apply perm_swap.
Qed.

Lemma order_by_id_perm (l : list Row) : Permutation (order_by_id l) l.
Proof.
  induction l as [|h t IH]; cbn; [reflexivity|].
  rewrite insert_by_id_perm; constructor; exact IH.
Qed.

Lemma insert_by_id_sorted (r : Row) (l : list Row) :
  Sorted row_by_id l -> Sorted row_by_id (insert_by_id r l).
Proof.
  induction 1 as [|h t Ht IH Hhd]; cbn; [repeat constructor|].
  destruct (row_id r <=? row_id h) eqn:E.
  - constructor; [constructor; assumption|].
    constructor; apply Z.leb_le, E.
  - constructor; [exact IH|].
    apply Z.leb_gt in E.
    destruct t as [|h' t']; cbn.
    + constructor; unfold row_by_id; lia.
    + destruct (row_id r <=? row_id h'); constructor;
        [unfold row_by_id; lia | inversion Hhd; assumption].
Qed.

Lemma order_by_id_sorted (l : list Row) :
  StronglySorted row_by_id (order_by_id l).
Proof.
  apply Sorted_StronglySorted.
  - intros a b c; unfold row_by_id; lia.
  - induction l as [|h t IH]; cbn; [constructor|].
    apply insert_by_id_sorted, IH.
Qed.

Lemma observations_by_id (l : list Row) :
  StronglySorted row_by_id l -> StronglySorted by_id (map observation_of l).
Proof.
  induction 1 as [|h t Ht IH Hall]; cbn; constructor; [exact IH|].
  rewrite Forall_forall in *; intros b Hb.
  apply in_map_iff in Hb; destruct Hb as (r & <- & Hr).
  exact (Hall r Hr).
Qed.

(** X7.  On a table whose rows all carry a sky, [get_all_reports] returns
    every stored observation, each as often as it is stored, by ascending
    id. *)
Theorem get_all_reports_by_id (db : Database) :
  sky_stored db ->
  exists reports,
    get_all_reports db = Ok reports
    /\ Permutation reports (map observation_of (metars db))
    /\ StronglySorted by_id reports.
Proof.
  intros Hsky; unfold get_all_reports.
  exists (map observation_of (order_by_id (metars db))); repeat split.
  - apply map_reports_stored, Forall_forall; intros r Hr.
    apply (Permutation_in _ (order_by_id_perm (metars db))) in Hr.
    unfold sky_stored in Hsky; rewrite Forall_forall in Hsky; apply Hsky, Hr.
  - apply Permutation_map, order_by_id_perm.
  - apply observations_by_id, order_by_id_sorted.
Qed.

Lemma get_all_reports_by_id_witness :
  exists reports,
    get_all_reports Sample.db3 = Ok reports
    /\ Permutation reports (map observation_of (metars Sample.db3))
    /\ StronglySorted by_id reports.
Proof.
  apply (get_all_reports_by_id Sample.db3).
  repeat constructor; discriminate.
Defined.

(** X8.  One stored row with a NULL sky is enough for [get_all_reports] to
    raise, and nothing else makes it raise. *)
Theorem get_all_reports_raises_iff (db : Database) :
  get_all_reports db = Raise TypeError
  <-> Exists (fun r => sky (cols r) = None) (metars db).
Proof.
  unfold get_all_reports; rewrite map_reports_raise_iff; split.
  - apply Exists_perm, order_by_id_perm.
  - apply Exists_perm; symmetry; apply order_by_id_perm.
Qed.

Lemma reversed_window_selects_nothing
      (icao : string) (s e : datetime) (l : list Row) :
  e < s -> filter (query_conditions icao (Some s) (Some e)) l = [].
Proof.
  intros H; induction l as [|r t IH]; cbn [filter]; [reflexivity|].
  replace (query_conditions icao (Some s) (Some e) r) with false; [exact IH|].
  symmetry; unfold query_conditions, sql_ge, sql_le; cbn.
  destruct (date_time (cols r)) as [x|]; [|apply andb_false_r].
  destruct (s <=? x) eqn:E1; [|rewrite andb_false_r; reflexivity].
  apply Z.leb_le in E1.
  replace (x <=? e) with false by (symmetry; apply Z.leb_gt; lia).
  apply andb_false_r.
Qed.

(** X9.  A window whose start lies after its end selects nothing:
    [get_by_airport] returns the empty list whatever is stored, and
    [get_stats] fails on it with [ValueError]. *)
Theorem reversed_window_is_empty
        (db : Database) (icao : string) (s e : datetime) :
  e < s ->
  get_by_airport db icao (Some s) (Some e) = Ok []
  /\ MeteoService.get_stats db icao (Some s) (Some e) = Raise ValueError.
Proof.
  intros H.
  assert (Hget : get_by_airport db icao (Some s) (Some e) = Ok []).
  { unfold get_by_airport.
    rewrite (reversed_window_selects_nothing icao s e _ H); reflexivity. }
  split; [exact Hget | apply get_stats_empty, Hget].
Qed.

Lemma reversed_window_is_empty_witness :
  get_by_airport Sample.db3 Sample.EPWA (Some 30) (Some 10) = Ok []
  /\ MeteoService.get_stats Sample.db3 Sample.EPWA (Some 30) (Some 10)
     = Raise ValueError.
Proof. apply (reversed_window_is_empty Sample.db3 Sample.EPWA 30 10); lia. Defined.

(** X10.  As soon as a bound is given, an observation without a time stamp is
    not returned: only the query without bounds returns such
    observations. *)
Theorem bounded_query_returns_dated
        (db : Database) (icao : string) (start_date end_date : option datetime)
        (reports : list MetarReport) :
  start_date <> None \/ end_date <> None ->
  get_by_airport db icao start_date end_date = Ok reports ->
  Forall (fun r => date_time (body r) <> None) reports.
Proof.
  intros Hbound Hget; unfold get_by_airport in Hget.
  apply map_reports_ok_inv in Hget; destruct Hget as [-> _].
  apply Forall_forall; intros m Hm.
  apply in_map_iff in Hm; destruct Hm as (r & <- & Hr).
  apply (Permutation_in _ (order_by_date_time_perm _)) in Hr.
  apply filter_In in Hr; destruct Hr as [_ Hq].
  unfold query_conditions, sql_ge, sql_le in Hq; cbn.
  destruct (date_time (cols r)) as [x|]; [discriminate|].
  destruct start_date, end_date; cbn in Hq;
    rewrite ?andb_false_r in Hq; try discriminate.
  destruct Hbound as [Hb|Hb]; contradiction.
Qed.

Lemma bounded_query_returns_dated_witness :
  Forall (fun r => date_time (body r) <> None) Sample.reports3.
Proof.
  apply (bounded_query_returns_dated Sample.db3 Sample.EPWA
           (Some 10) (Some 30) Sample.reports3).
  - left; discriminate.
  - reflexivity.
Defined.

(** X11.  On a table whose keys came from its sequence, [add_text_report]
    either passes on the exception of the decoder and leaves the table as
    it is, or inserts the decoded report and returns it with its new id:
    reading the new row back never raises. *)
Theorem add_text_report_outcome (Metar : Decoder) (db : Database) (text : string) :
  db_ok db ->
  add_text_report Metar db text
  = match Metar text with
    | Raise e => (db, Raise e)
    | Ok obs =>
        (fst (insert db (from_obs obs)),
         Ok (Some (mkReport (next_id db) (from_obs obs))))
    end.
Proof.
  intros Hok; unfold add_text_report, from_text_report.
  destruct (Metar text) as [obs|e]; cbn [bind]; [|reflexivity].
  change (insert db (from_obs obs))
    with (fst (insert db (from_obs obs)), next_id db).
  cbv beta iota.
  rewrite (get_by_id_inserted db (from_obs obs) _ Hok eq_refl).
  reflexivity.
Qed.

Lemma add_text_report_outcome_witness :
  add_text_report Sample.sample_Metar Sample.db1 "EPGD 041000Z"%string
  = match Sample.sample_Metar "EPGD 041000Z"%string with
    | Raise e => (Sample.db1, Raise e)
    | Ok obs =>
        (fst (insert Sample.db1 (from_obs obs)),
         Ok (Some (mkReport (next_id Sample.db1) (from_obs obs))))
    end.
Proof.
  apply (add_text_report_outcome Sample.sample_Metar Sample.db1 "EPGD 041000Z"%string).
  repeat constructor.
Defined.

(** X12.  On a table whose keys came from its sequence, the route
    [POST /meteo/create] answers 201 exactly
    when the decoder accepts the report and 500 when it raises. *)
Theorem create_report_status_by_decoder (Metar : Decoder) (db : Database) (text : string) :
  db_ok db ->
  snd (create_report Metar db text)
  = match Metar text with Ok _ => 201 | Raise _ => 500 end.
Proof.
  intros Hok; unfold create_report, add_text_report, from_text_report.
  destruct (Metar text) as [obs|e]; cbn [bind]; [|reflexivity].
  change (insert db (from_obs obs))
    with (fst (insert db (from_obs obs)), next_id db).
  cbv beta iota.
  rewrite (get_by_id_inserted db (from_obs obs) _ Hok eq_refl).
  reflexivity.
Qed.

Lemma create_report_status_by_decoder_witness :
  snd (create_report Sample.sample_Metar Sample.db1 "EPKK 041000Z"%string)
  = match Sample.sample_Metar "EPKK 041000Z"%string with
    | Ok _ => 201
    | Raise _ => 500
    end.
Proof.
  apply (create_report_status_by_decoder Sample.sample_Metar Sample.db1 "EPKK 041000Z"%string).
  repeat constructor.
Defined.

End ReadMore.

(** * Further properties of the statistics *)

Section StatsMore.

Import MeteoRepository MeteoService.

(** What a returned summary tells about the call. *)
Lemma get_stats_ok_inv (db : Database) (icao : string)
      (s e : option datetime) (dto : MeteoStatsDTO) :
  get_stats db icao s e = Ok dto ->
  exists s' e' reports,
    s = Some s' /\ e = Some e'
    /\ get_by_airport db icao s e = Ok reports
    /\ reports <> [] /\ Forall complete reports
    /\ start_time dto = s' /\ end_time dto = e' /\ stats_icao_code dto = icao
    /\ summary_of reports dto.
Proof.
  intros H.
  destruct (get_by_airport db icao s e) as [reports|e'] eqn:Hget;
    [|unfold get_stats in H; rewrite Hget in H; discriminate].
  destruct reports as [|r t];
    [rewrite (get_stats_empty _ _ _ _ Hget) in H; discriminate|].
  destruct (complete_dec (r :: t)) as [Hc|Hc];
    [|rewrite (get_stats_incomplete _ _ _ _ _ Hget ltac:(discriminate) Hc) in H;
      discriminate].
  destruct (get_stats_complete _ _ _ _ _ Hget ltac:(discriminate) Hc)
    as (ta & tn & tx & wa & wn & wx & ra & rn & rx & da & dn & dx
        & qa & qn & qx & E & St & Sw & Sr & Sd & Sq).
  rewrite E in H; destruct s as [s'|], e as [e''|]; try discriminate.
  injection H as <-.
  exists s', e'', (r :: t); cbn.
  repeat (split; [reflexivity || discriminate || assumption|]).
  unfold summary_of; cbn; auto 10.
Qed.

(** X13.  [get_stats] returns a summary exactly when both bounds are given, the
    read of the store succeeds, its result is not empty and every report
    in it has all five metrics. *)
Theorem get_stats_returns_iff (db : Database) (icao : string)
        (s e : option datetime) :
  (exists dto, get_stats db icao s e = Ok dto)
  <-> (exists s' e' reports,
          s = Some s' /\ e = Some e'
          /\ get_by_airport db icao s e = Ok reports
          /\ reports <> [] /\ Forall complete reports).
Proof.
  split.
  - intros (dto & H).
    destruct (get_stats_ok_inv _ _ _ _ _ H)
      as (s' & e' & reports & Hs & He & Hget & Hne & Hc & _).
    exists s', e', reports; auto.
  - intros (s' & e' & reports & -> & -> & Hget & Hne & Hc).
    destruct (get_stats_complete _ _ _ _ _ Hget Hne Hc)
      as (ta & tn & tx & wa & wn & wx & ra & rn & rx & da & dn & dx
          & qa & qn & qx & E & _).
    rewrite E; cbn; eauto.
Qed.

(** X15.  With a bound absent and a non-empty result of the store,
    [get_stats] fails in one of two ways: with [TypeError] when a report
    lacks a metric, otherwise with [ValidationError] when the summary is
    built; the first takes precedence. *)
Theorem get_stats_bound_absent (db : Database) (icao : string)
        (s e : option datetime) (reports : list MetarReport) :
  s = None \/ e = None ->
  get_by_airport db icao s e = Ok reports ->
  reports <> [] ->
  (Forall complete reports ->
   get_stats db icao s e = Raise ValidationError)
  /\ (~ Forall complete reports ->
      get_stats db icao s e = Raise TypeError).
Proof.
  intros Hb Hget Hne; split; intros Hc.
  - destruct (get_stats_complete _ _ _ _ _ Hget Hne Hc)
      as (ta & tn & tx & wa & wn & wx & ra & rn & rx & da & dn & dx
          & qa & qn & qx & E & _).
    rewrite E; destruct Hb as [-> | ->]; [reflexivity|].
    destruct s; reflexivity.
  - exact (get_stats_incomplete _ _ _ _ _ Hget Hne Hc).
Qed.

Lemma get_stats_bound_absent_witness :
  get_stats Sample.db3 Sample.EPWA (Some 10) None = Raise ValidationError
  /\ get_stats Sample.db_gap Sample.EPWA None None = Raise TypeError.
Proof.
  split.
  - apply (get_stats_bound_absent Sample.db3 Sample.EPWA (Some 10) None
             Sample.reports3);
      [right; reflexivity | reflexivity | discriminate |].
    repeat constructor; discriminate.
  - apply (get_stats_bound_absent Sample.db_gap Sample.EPWA None None
             Sample.reports_gap);
      [left; reflexivity | reflexivity | discriminate |].
    intros H; inversion H as [|? ? _ H2]; subst.
    inversion H2 as [|? ? H3 _]; subst.
    destruct H3 as [H3 _]; apply H3; reflexivity.
Defined.

End StatsMore.

(** * Further properties of the collector *)

Section CollectMore.

Import Collector.

Lemma split_lines_cons (s : string) : exists h t, split_lines s = h :: t.
Proof.
  destruct s as [|c r]; cbn; [eauto|].
  destruct (Ascii.eqb c newline); [eauto|].
  destruct (split_lines r); eauto.
Qed.

Lemma split_lines_several (s : string) :
  one_line s = false -> exists l0 l1 more, split_lines s = l0 :: l1 :: more.
Proof.
  induction s as [|c r IH]; cbn; [discriminate|].
  destruct (Ascii.eqb c newline); cbn.
  - intros _; destruct (split_lines_cons r) as (h & t & ->); eauto.
  - intros H; destruct (IH H) as (l0 & l1 & more & ->); eauto.
Qed.

Lemma split_lines_clean (s : string) :
  Forall (fun l => one_line l = true) (split_lines s).
Proof.
  induction s as [|c r IH]; cbn; [repeat constructor|].
  destruct (Ascii.eqb c newline) eqn:E; [constructor; [reflexivity | exact IH]|].
  destruct (split_lines r) as [|h t].
  - repeat constructor; cbn; rewrite E; reflexivity.
  - inversion IH as [|? ? Hh Ht]; subst.
    constructor; [cbn; rewrite E, Hh; reflexivity | exact Ht].
Qed.

(** What [fetch_metar] does with an answer of status below 400. *)
Lemma fetch_metar_answered (w : World) (icao : string) (code : Z) (text : string) :
  http_get w (METAR_ENDPOINT (upper icao)) = Status code text ->
  code < 400 ->
  fetch_metar w icao
  = match nth_error (split_lines text) 1 with
    | Some line => Ok (Some line)
    | None => Raise IndexError
    end.
Proof.
  intros Hget Hcode; unfold fetch_metar; rewrite Hget; cbn [raise_for_status].
  replace (400 <=? code) with false by (symmetry; apply Z.leb_gt; lia).
  cbn [bind]; destruct (nth_error (split_lines text) 1); reflexivity.
Qed.

(** X16.  When the source answers with a status below 400, [fetch_metar]
    raises [IndexError] exactly when the text has no line break. *)
Theorem fetch_metar_index_error
        (w : World) (icao : string) (code : Z) (text : string) :
  http_get w (METAR_ENDPOINT (upper icao)) = Status code text ->
  code < 400 ->
  (fetch_metar w icao = Raise IndexError <-> one_line text = true).
Proof.
  intros Hget Hcode; rewrite (fetch_metar_answered w icao code text Hget Hcode).
  destruct (one_line text) eqn:E.
  - rewrite (split_lines_one_line text E); cbn; split; reflexivity.
  - destruct (split_lines_several text E) as (l0 & l1 & more & ->); cbn.
    split; discriminate.
Qed.

Lemma fetch_metar_index_error_witness :
  fetch_metar
    (mkWorld (fun _ => Status 200 "EPWA 041000Z 27005KT") (fun _ => None))
    "epwa"
  = Raise IndexError.
Proof.
  apply (fetch_metar_index_error
           (mkWorld (fun _ => Status 200 "EPWA 041000Z 27005KT") (fun _ => None))
           "epwa" 200 "EPWA 041000Z 27005KT").
  - reflexivity.
  - lia.
  - reflexivity.
Defined.

(** X17.  A report that [fetch_metar] returns holds no line break. *)
Theorem fetch_metar_returns_one_line (w : World) (icao line : string) :
  fetch_metar w icao = Ok (Some line) -> one_line line = true.
Proof.
  unfold fetch_metar.
  destruct (http_get w (METAR_ENDPOINT (upper icao))) as [code text|e];
    cbn [raise_for_status].
  - destruct (400 <=? code); cbn [bind]; [discriminate|].
    destruct (nth_error (split_lines text) 1) as [l|] eqn:E;
      [|discriminate].
    intros H; injection H as <-.
    apply nth_error_In in E.
    pose proof (split_lines_clean text) as Hc.
    rewrite Forall_forall in Hc; apply Hc, E.
  - destruct e; discriminate.
Qed.

Lemma fetch_metar_returns_one_line_witness :
  one_line "EPWA 041000Z 27005KT 9999 FEW030 08/03 Q1015" = true.
Proof.
  apply (fetch_metar_returns_one_line Sample.world "epwa").
  reflexivity.
Defined.

Lemma fetch_metar_catches (w : World) (icao : string) :
  fetch_metar w icao <> Raise ClientResponseError.
Proof.
  unfold fetch_metar.
  destruct (http_get w (METAR_ENDPOINT (upper icao))) as [code text|e];
    cbn [raise_for_status].
  - destruct (400 <=? code); cbn [bind]; [discriminate|].
    destruct (nth_error (split_lines text) 1); discriminate.
  - destruct e; discriminate.
Qed.

Lemma post_metar_result (w : World) (Metar : Decoder) (db : Database)
      (metar_data : string) :
  post_metar w Metar db metar_data
  = match post_failure w metar_data with
    | None => (fst (create_report Metar db metar_data), Ok tt)
    | Some ClientResponseError => (db, Ok tt)
    | Some e => (db, Raise e)
    end.
Proof.
  destruct (post_failure w metar_data) as [e|] eqn:E.
  - unfold post_metar; rewrite E; destruct e; reflexivity.
  - apply post_metar_settles, E.
Qed.

(** X18.  [post_metar] raises only what the transport raised, and never
    [ClientResponseError]: an answer of the API, whatever its status, is
    no exception for the collector. *)
Theorem post_metar_raises_iff (w : World) (Metar : Decoder) (db : Database)
        (metar_data : string) (e : exn) :
  snd (post_metar w Metar db metar_data) = Raise e
  <-> post_failure w metar_data = Some e /\ e <> ClientResponseError.
Proof.
  rewrite post_metar_result.
  destruct (post_failure w metar_data) as [e'|]; cbn.
  - destruct e'; cbn; split;
      try (intros H; injection H as <-; split; [reflexivity|discriminate]);
      try (intros [H1 H2]; injection H1 as <-; congruence);
      try discriminate.
  - split; [discriminate | intros [H _]; discriminate].
Qed.

Lemma process_airport_catches (w : World) (Metar : Decoder) (db : Database)
      (a : Airport) :
  snd (process_airport w Metar db a) <> Raise ClientResponseError.
Proof.
  unfold process_airport.
  destruct (negb (truthy_str (airport_icao_code a))); [discriminate|].
  destruct (airport_icao_code a) as [c|]; [|discriminate].
  pose proof (fetch_metar_catches w c) as Hf.
  destruct (fetch_metar w c) as [d|e]; [|cbn; congruence].
  destruct (truthy_str d); [|discriminate].
  destruct d as [d|]; [|discriminate].
  intros H; apply post_metar_raises_iff in H; destruct H as [_ H]; auto.
Qed.

Lemma gather_loop_catches (w : World) (Metar : Decoder) (s steps : nat)
      (arrival : list nat) (left : option nat) (pending : list Airport)
      (db : Database) (outcome : result unit) :
  outcome <> Raise ClientResponseError ->
  snd (gather_loop w Metar s steps arrival left pending db outcome)
  <> Raise ClientResponseError.
Proof.
  revert arrival left pending db outcome.
  induction steps as [|steps IH]; intros arrival left pending db outcome Ho;
    [exact Ho|].
  cbn [gather_loop].
  assert (Hstep :
    snd match take_nth (Nat.modulo (hd O arrival) (List.length pending))
                       pending with
        | None => (db, outcome)
        | Some (airport, rest) =>
            let (db', r) := process_airport w Metar db airport in
            match outcome, r with
            | Ok _, Ok _ =>
                gather_loop w Metar s steps (tl arrival) left rest db' (Ok tt)
            | Ok _, Raise e =>
                gather_loop w Metar s steps (tl arrival) (Some s) rest db'
                            (Raise e)
            | Raise e0, _ =>
                gather_loop w Metar s steps (tl arrival)
                            (option_map Nat.pred left) rest db' (Raise e0)
            end
        end
    <> Raise ClientResponseError).
  { destruct (take_nth _ pending) as [[a rest]|]; [|exact Ho].
    pose proof (process_airport_catches w Metar db a) as Ha.
    destruct (process_airport w Metar db a) as [db' r]; cbn [snd] in Ha.
    destruct outcome as [u|e0]; [destruct r as [u'|e]|]; apply IH;
      try discriminate; assumption. }
  destruct left as [[|n]|]; [exact Ho | exact Hstep | exact Hstep].
Qed.

(** X19.  Whatever the source and the API do, and in whatever order the
    tasks complete, the station tasks never make [main] raise
    [ClientResponseError]: an error status of a station's fetch or post is
    always absorbed. *)
Theorem main_never_raises_status_error
        (w : World) (Metar : Decoder) (db : Database) (airports : list Airport)
        (sched : Schedule) :
  snd (main w Metar db airports sched) <> Raise ClientResponseError.
Proof. apply gather_loop_catches; discriminate. Qed.

(** X20.  A run that ends with [ClientResponseError] got it from the request
    for the airport list, and has stored nothing. *)
Theorem run_status_error_is_the_directory
        (w : World) (d : Directory) (Metar : Decoder) (db : Database)
        (sched : Schedule) :
  snd (run w d Metar db sched) = Raise ClientResponseError ->
  fetch_airports d = Raise ClientResponseError
  /\ fst (run w d Metar db sched) = db.
Proof.
  unfold run; destruct (fetch_airports d) as [airports|e]; cbn.
  - intros H; exfalso; revert H.
    apply gather_loop_catches; discriminate.
  - intros H; injection H as ->; split; reflexivity.
Qed.

Lemma run_status_error_is_the_directory_witness :
  fetch_airports (Listing 503 []) = Raise ClientResponseError
  /\ fst (run Sample.world (Listing 503 []) Sample.sample_Metar Sample.db1
              Sample.out_of_order)
     = Sample.db1.
Proof.
  apply (run_status_error_is_the_directory Sample.world (Listing 503 [])
           Sample.sample_Metar Sample.db1 Sample.out_of_order).
  reflexivity.
Defined.

Lemma process_airport_store (w : World) (Metar : Decoder) (db : Database)
      (a : Airport) :
  fst (process_airport w Metar db a) = db
  \/ exists obs,
      fst (process_airport w Metar db a)
      = fst (MeteoRepository.insert db (from_obs obs)).
Proof.
  unfold process_airport.
  destruct (negb (truthy_str (airport_icao_code a))); [left; reflexivity|].
  destruct (airport_icao_code a) as [c|]; [|left; reflexivity].
  destruct (fetch_metar w c) as [d|e]; [|left; reflexivity].
  destruct (truthy_str d); [|left; reflexivity].
  destruct d as [d|]; [|left; reflexivity].
  rewrite post_metar_result.
  destruct (post_failure w d) as [e|]; [destruct e; left; reflexivity|].
  cbn [fst]; rewrite create_report_stores.
  destruct (Metar d) as [obs|e]; [right; eauto | left; reflexivity].
Qed.

Lemma gather_loop_store (w : World) (Metar : Decoder) (s steps : nat)
      (arrival : list nat) (left : option nat) (pending : list Airport)
      (db : Database) (outcome : result unit) :
  exists l,
    fst (gather_loop w Metar s steps arrival left pending db outcome)
    = insert_all db l
    /\ (List.length l <= steps)%nat
    /\ Forall (fun o : MetarReportIn => sky o <> None) l.
Proof.
  revert arrival left pending db outcome.
  induction steps as [|steps IH]; intros arrival left pending db outcome.
  - exists []; repeat split; [cbn; lia | constructor].
  - cbn [gather_loop].
    assert (Hstop : exists l,
               fst (db, outcome) = insert_all db l
               /\ (List.length l <= S steps)%nat
               /\ Forall (fun o : MetarReportIn => sky o <> None) l).
    { exists []; repeat split; [cbn; lia | constructor]. }
    assert (Hstep : exists l,
      fst match take_nth (Nat.modulo (hd O arrival) (List.length pending))
                         pending with
          | None => (db, outcome)
          | Some (airport, rest) =>
              let (db', r) := process_airport w Metar db airport in
              match outcome, r with
              | Ok _, Ok _ =>
                  gather_loop w Metar s steps (tl arrival) left rest db'
                              (Ok tt)
              | Ok _, Raise e =>
                  gather_loop w Metar s steps (tl arrival) (Some s) rest db'
                              (Raise e)
              | Raise e0, _ =>
                  gather_loop w Metar s steps (tl arrival)
                              (option_map Nat.pred left) rest db' (Raise e0)
              end
          end
      = insert_all db l
      /\ (List.length l <= S steps)%nat
      /\ Forall (fun o : MetarReportIn => sky o <> None) l).
    { destruct (take_nth _ pending) as [[a rest]|]; [|exact Hstop].
      pose proof (process_airport_store w Metar db a) as Ha.
      destruct (process_airport w Metar db a) as [db' r]; cbn [fst] in Ha.
      assert (Hnext : forall left' outcome',
                 exists l,
                   fst (gather_loop w Metar s steps (tl arrival) left' rest
                                    db' outcome')
                   = insert_all db l
                   /\ (List.length l <= S steps)%nat
                   /\ Forall (fun o : MetarReportIn => sky o <> None) l).
      { intros left' outcome'.
        destruct (IH (tl arrival) left' rest db' outcome')
          as (l & El & Hlen & Hsky).
        destruct Ha as [-> | (obs & ->)].
        - exists l; repeat split; [exact El | lia | exact Hsky].
        - exists (from_obs obs :: l); repeat split;
            [exact El | cbn; lia | constructor; [discriminate | exact Hsky]]. }
      destruct outcome as [u|e0]; [destruct r as [u'|e]|]; apply Hnext. }
    destruct left as [[|n]|]; [exact Hstop | exact Hstep | exact Hstep].
Qed.

Lemma insert_all_rows (db : Database) (l : list MetarReportIn) :
  Forall (fun o : MetarReportIn => sky o <> None) l ->
  exists added,
    metars (insert_all db l) = metars db ++ added
    /\ List.length added = List.length l
    /\ Forall (fun r => sky (cols r) <> None) added.
Proof.
  intros H; revert db; induction H as [|o t Ho _ IH]; intros db.
  - exists []; cbn; rewrite app_nil_r; repeat split; constructor.
  - destruct (IH (fst (MeteoRepository.insert db o))) as (added & E & Hlen & Hs).
    unfold insert_all in *; cbn [fold_left].
    rewrite E; cbn; rewrite <- app_assoc; cbn.
    eexists; split; [reflexivity|]; split; [cbn; rewrite Hlen; reflexivity|].
    constructor; [|exact Hs].
    cbn; destruct (sky o); [discriminate | contradiction].
Qed.

(** X21.  Whatever the source and the API do, in whatever order the tasks
    complete and whichever of them are cancelled, and whether or not the
    run raises, a run only appends to the table: the rows stored before it
    are kept as they are and in place, at most one row is added per listed
    airport, and every added row carries a sky. *)
Theorem main_only_appends
        (w : World) (Metar : Decoder) (db : Database) (airports : list Airport)
        (sched : Schedule) :
  exists added,
    metars (fst (main w Metar db airports sched)) = metars db ++ added
    /\ (List.length added <= List.length airports)%nat
    /\ Forall (fun r => sky (cols r) <> None) added.
Proof.
  unfold main, gather.
  destruct (gather_loop_store w Metar (stragglers sched)
              (List.length airports) (arrival sched) None airports db (Ok tt))
    as (l & -> & Hlen & Hsky).
  destruct (insert_all_rows db l Hsky) as (added & E & Hl & Hs).
  exists added; repeat split; [exact E | lia | exact Hs].
Qed.

(** X22.  Nothing is remembered between runs: when every fetch is answered
    and the API is reachable, a second run over the same list in the same
    world stores the same reports once more, under new keys; each run
    inserts them in the order in which its own tasks complete. *)
Theorem main_twice_stores_twice
        (w : World) (Metar : Decoder) (db : Database) (airports : list Airport)
        (first second : Schedule) :
  (forall d, post_failure w d = None) ->
  Forall (fetch_settles w) airports ->
  exists stored1 stored2,
    Permutation stored1 (stored_reports w Metar airports)
    /\ Permutation stored2 (stored_reports w Metar airports)
    /\ main w Metar (fst (main w Metar db airports first)) airports second
       = (insert_all db (stored1 ++ stored2), Ok tt).
Proof.
  intros Hpost Hall; unfold main, gather.
  destruct (gather_loop_settles w Metar (stragglers first)
              (List.length airports) (arrival first) airports db
              Hpost Hall (le_n _)) as (l1 & H1 & ->).
  cbn [fst].
  destruct (gather_loop_settles w Metar (stragglers second)
              (List.length airports) (arrival second) airports
              (insert_all db l1) Hpost Hall (le_n _)) as (l2 & H2 & ->).
  exists l1, l2; split; [exact H1|]; split; [exact H2|].
  unfold insert_all; rewrite fold_left_app; reflexivity.
Qed.

Lemma main_twice_stores_twice_witness :
  exists stored1 stored2,
    Permutation stored1
      (stored_reports Sample.world Sample.sample_Metar Sample.five)
    /\ Permutation stored2
         (stored_reports Sample.world Sample.sample_Metar Sample.five)
    /\ main Sample.world Sample.sample_Metar
            (fst (main Sample.world Sample.sample_Metar empty_db Sample.five
                       Sample.in_list_order))
            Sample.five Sample.out_of_order
       = (insert_all empty_db (stored1 ++ stored2), Ok tt).
Proof.
  apply (main_twice_stores_twice Sample.world Sample.sample_Metar empty_db
           Sample.five Sample.in_list_order Sample.out_of_order).
  - reflexivity.
  - exact sample_fetches_settle.
Defined.

End CollectMore.

(** * Properties of the query routes *)

Section Routes.

Import MeteoRouter.

Lemma parse_bound_absent (strptime : Strptime) (x : option string) :
  truthy_str x = false -> parse_bound strptime x = Ok None.
Proof. intros H; unfold parse_bound; rewrite H; reflexivity. Qed.

Lemma parse_bound_some (strptime : Strptime) (x : option string) (d : datetime) :
  parse_bound strptime x = Ok (Some d) -> truthy_str x = true.
Proof.
  unfold parse_bound; destruct (truthy_str x); [reflexivity | discriminate].
Qed.

(** X23.  The route [GET /meteo/stats] returns a summary only for a request
    that names the station and gives both bounds, none of them empty: a
    request for all time, or for a half-open window, never gets one. *)
Theorem stats_route_needs_all_three
        (strptime : Strptime) (db : Database) (icao start end_ : option string)
        (dto : MeteoStatsDTO) :
  get_stats strptime db icao start end_ = Returned dto ->
  truthy_str icao = true /\ truthy_str start = true
  /\ truthy_str end_ = true.
Proof.
  unfold get_stats.
  destruct (truthy_str icao) eqn:Ei; cbn [negb]; [|discriminate].
  destruct icao as [code|]; [|discriminate].
  destruct (parse_bound strptime start) as [s|e] eqn:Es; [|discriminate].
  destruct (parse_bound strptime end_) as [e|e'] eqn:Ee; [|discriminate].
  destruct (MeteoService.get_stats db code s e) as [d|x] eqn:E; cbn;
    [|discriminate].
  intros _.
  destruct (get_stats_needs_both_bounds _ _ _ _ _ E) as [Hs He].
  destruct s as [s|], e as [e|]; try contradiction.
  repeat split;
    [eapply parse_bound_some, Es | eapply parse_bound_some, Ee].
Qed.

Lemma stats_route_needs_all_three_witness :
  truthy_str (Some Sample.EPWA) = true
  /\ truthy_str (Some "2024-11-04 00:00:10"%string) = true
  /\ truthy_str (Some "2024-11-04 00:00:30"%string) = true.
Proof.
  eapply (stats_route_needs_all_three Sample.sample_strptime Sample.db3
            (Some Sample.EPWA) (Some "2024-11-04 00:00:10"%string)
            (Some "2024-11-04 00:00:30"%string)).
  reflexivity.
Defined.

(** X24.  The routes [GET /meteo/filter] and [GET /meteo/stats] raise an
    [HTTPException] exactly when the request names no station (the code is
    absent or empty), and then with status 400, whatever the bounds are: a
    bound that cannot be read, or a failure of the service, is never
    answered with an [HTTPException]. *)
Theorem routes_reject_iff_no_station
        (strptime : Strptime) (db : Database) (icao start end_ : option string)
        (status : Z) (detail : string) :
  (filter_reports strptime db icao start end_ = HTTPException status detail
   <-> truthy_str icao = false /\ status = 400
       /\ detail = "ICAO code not provided"%string)
  /\ (get_stats strptime db icao start end_ = HTTPException status detail
      <-> truthy_str icao = false /\ status = 400
          /\ detail = "ICAO code not provided"%string).
Proof.
  unfold filter_reports, get_stats.
  destruct (truthy_str icao) eqn:Ei; cbn [negb].
  - destruct icao as [code|]; [|discriminate].
    destruct (parse_bound strptime start) as [s|e];
      [|split; split; [discriminate | intros [H _]; discriminate
                       | discriminate | intros [H _]; discriminate]].
    destruct (parse_bound strptime end_) as [e|e'];
      [|split; split; [discriminate | intros [H _]; discriminate
                       | discriminate | intros [H _]; discriminate]].
    split; split; try (intros [H _]; discriminate).
    + destruct (MeteoRepository.get_by_airport db code s e); discriminate.
    + destruct (MeteoService.get_stats db code s e); discriminate.
  - split; split.
    + intros H; injection H as <- <-; auto.
    + intros (_ & -> & ->); reflexivity.
    + intros H; injection H as <- <-; auto.
    + intros (_ & -> & ->); reflexivity.
Qed.

End Routes.

(** * Properties of [init_db] *)

Section InitDb.

Import Db.

Lemma init_loop_first_answer (engine : nat -> attempt) (k a n : nat) :
  (k < n)%nat ->
  (forall j, (j < k)%nat -> engine (a + j)%nat = Unavailable) ->
  engine (a + k)%nat <> Unavailable ->
  init_loop engine a n
  = (match engine (a + k)%nat with
     | Created => Ready
     | Failure e => Propagated e
     | Unavailable => ConnectionError
     end,
     seq (a + 1) k).
Proof.
  revert a n; induction k as [|k IH]; intros a n Hk Hbefore Hat.
  - destruct n as [|n]; [lia|]; cbn [init_loop seq].
    rewrite Nat.add_0_r in *.
    destruct (engine a); [reflexivity | contradiction | reflexivity].
  - destruct n as [|n]; [lia|]; cbn [init_loop].
    assert (H0 : engine a = Unavailable).
    { rewrite <- (Nat.add_0_r a); apply Hbefore; lia. }
    rewrite H0.
    rewrite (IH (S a) n); [| lia | | ].
    + replace (S a + k)%nat with (a + S k)%nat by lia.
      cbn [seq]; replace (S a + 1)%nat with (S (a + 1)) by lia.
      reflexivity.
    + intros j Hj; replace (S a + j)%nat with (a + S j)%nat by lia.
      apply Hbefore; lia.
    + replace (S a + k)%nat with (a + S k)%nat by lia; exact Hat.
Qed.

Lemma init_loop_gives_up (engine : nat -> attempt) (n a : nat) :
  (forall j, (j < n)%nat -> engine (a + j)%nat = Unavailable) ->
  init_loop engine a n = (ConnectionError, seq (a + 1) n).
Proof.
  revert a; induction n as [|n IH]; intros a H; [reflexivity|].
  cbn [init_loop].
  assert (H0 : engine a = Unavailable).
  { rewrite <- (Nat.add_0_r a); apply H; lia. }
  rewrite H0, (IH (S a)).
  - cbn [seq]; replace (S a + 1)%nat with (S (a + 1)) by lia; reflexivity.
  - intros j Hj; replace (S a + j)%nat with (a + S j)%nat by lia.
    apply H; lia.
Qed.

(** X25.  [init_db] ends with the first attempt that does not fail with one of
    the four caught errors, if there is one among the first [retries]: it
    returns when that attempt created the tables and passes on the
    exception otherwise, after one print and one sleep for each attempt
    before it. *)
Theorem init_db_first_answer (engine : nat -> attempt) (retries : Z) (k : nat) :
  (k < Z.to_nat retries)%nat ->
  (forall j, (j < k)%nat -> engine j = Unavailable) ->
  engine k <> Unavailable ->
  init_db engine retries
  = (match engine k with
     | Created => Ready
     | Failure e => Propagated e
     | Unavailable => ConnectionError
     end,
     seq 1 k).
Proof.
  intros Hk Hbefore Hat; unfold init_db.
  exact (init_loop_first_answer engine k 0 (Z.to_nat retries) Hk Hbefore Hat).
Qed.

Lemma init_db_first_answer_witness :
  init_db Sample.slow_engine 5 = (Ready, [1; 2]%nat).
Proof.
  apply (init_db_first_answer Sample.slow_engine 5 2).
  - cbn; lia.
  - intros j Hj; unfold Sample.slow_engine.
    replace (j <? 2)%nat with true by (symmetry; apply Nat.ltb_lt; exact Hj).
    reflexivity.
  - discriminate.
Defined.

(** X26.  When each of the [retries] attempts fails with a caught error,
    [init_db] raises [ConnectionError] after [retries] prints and as many
    sleeps, the last of them after the last attempt; with [retries <= 0]
    it raises at once. *)
Theorem init_db_gives_up (engine : nat -> attempt) (retries delay : Z) :
  (forall j, (j < Z.to_nat retries)%nat -> engine j = Unavailable) ->
  init_db engine retries = (ConnectionError, seq 1 (Z.to_nat retries))
  /\ slept delay (snd (init_db engine retries)) = delay * Z.max 0 retries.
Proof.
  intros H; unfold init_db.
  rewrite (init_loop_gives_up engine (Z.to_nat retries) 0 H); cbn [snd].
  split; [reflexivity|].
  unfold slept; rewrite length_seq; f_equal; lia.
Qed.

Lemma init_db_gives_up_witness :
  init_db Sample.dead_engine 5 = (ConnectionError, seq 1 (Z.to_nat 5))
  /\ slept 5 (snd (init_db Sample.dead_engine 5)) = 5 * Z.max 0 5.
Proof.
  apply (init_db_gives_up Sample.dead_engine 5 5).
  intros j _; reflexivity.
Defined.

End InitDb.
